(** * ToothSwinUNETR/losses/loss.py: composite segmentation losses

    A shallow embedding of [ToothSwinUNETR/losses/loss.py] and the proofs of
    the properties its specification states about it.

    The file wires three losses of external libraries together (MONAI's
    Dice and Generalized Wasserstein Dice, PyTorch's cross entropy), builds
    the class-distance matrix of the Wasserstein loss and reconciles the
    shape and dtype of the label tensor with the prediction.  The external
    losses, the [.npy] tables on disk and the installed PyTorch version
    are the environment of the program: they are the fields of the classes
    [Torch] and [Externals], and every call the program makes to them is
    written to a trace, so that what is delegated, in which order, and
    what is never called can be stated. *)

From Stdlib Require Import List String ZArith Lia Bool PeanoNat.
From Stdlib Require Import Floats.PrimFloat.
From Corelib Require SpecFloat FloatOps FloatAxioms.
From Stdlib Require Import DecimalString.
Import ListNotations.

Set Implicit Arguments.
Set Warnings "-inexact-float".

Local Open Scope string_scope.
Local Open Scope list_scope.
Local Open Scope nat_scope.

(** ** Python values and exceptions *)

(** The exception classes that the program and the primitives it calls
    raise, each with its message. *)
Inductive Exception : Type :=
| ValueError (msg : string)
| IndexError (msg : string)
| RuntimeError (msg : string)
| FileNotFoundError (msg : string)
| AttributeError (msg : string).

(** A computation that raises or returns, without other effect. *)
Definition Exc (A : Type) : Type := (Exception + A)%type.

(** The Python objects a caller passes for [quarter_penalty]: the
    annotation says [bool], the default is a [str], nothing is checked. *)
Inductive PyObj : Type :=
| PyBool (b : bool)
| PyStr (s : string)
| PyInt (z : Z)
| PyNone.

(** [if x:] of Python. *)
Definition truthy (x : PyObj) : bool :=
  match x with
  | PyBool b => b
  | PyStr s => negb (String.eqb s "")
  | PyInt z => negb (Z.eqb z 0)
  | PyNone => false
  end.

(** ** PyTorch as the program finds it

    What depends on the installation and not on the program: the devices
    that can hold a tensor, the dtypes the arg-max is implemented for, the
    value-level kernels (the conversion of the elements from one dtype to
    another, the arg-max along a dimension), and the text of the messages
    of the exceptions PyTorch raises, which differs from release to
    release.  The program fixes the class of such an exception and the
    condition it is raised on; the text is [error_text] of the kind of
    error. *)

(** A device, by the name a tensor on it prints for it. *)
Definition Device : Type := string.

Inductive DType : Type :=
| float16 | bfloat16 | float32 | float64
| uint8 | int8 | int16 | int32 | int64 | bool_.

Definition DType_eqb (a b : DType) : bool :=
  match a, b with
  | float16, float16 | bfloat16, bfloat16 | float32, float32 | float64, float64
  | uint8, uint8 | int8, int8 | int16, int16 | int32, int32 | int64, int64
  | bool_, bool_ => true
  | _, _ => false
  end.

(** The errors of the PyTorch primitives that the program calls. *)
Inductive TorchError : Type :=
| DeviceUnavailable (d : Device)
| DevicesDiffer (d1 d2 : Device)
| CatSizeMismatch (dim expected got : nat)
| DimensionOutOfRange (dim : nat)
| IndexOutOfBounds (index dim size : nat)
| ArgmaxOfEmptyDimension (dim : nat)
| ArgmaxNotImplemented (dt : DType).

Class Torch : Type := {
  Storage : Type;
  (** the elements of a storage converted from dtype [src] to dtype [dst] *)
  cast_storage : forall (src dst : DType), Storage -> Storage;
  (** the indices of the first maximal element along dimension [dim] of a
      tensor of the given shape *)
  argmax_storage : forall (shape : list nat) (dim : nat), Storage -> Storage;
  (** whether a tensor can be created on, or moved to, the device *)
  device_available : Device -> bool;
  (** whether this installation has an arg-max kernel for the dtype, among
      the dtypes other than the boolean one, for which there is none *)
  argmax_implemented : DType -> bool;
  (** the message of the exception raised for an error *)
  error_text : TorchError -> string
}.

(** ** Distance matrices: two-dimensional float tensors

    A dense two-dimensional tensor is its shape, the device it lives on and
    its cells, read by index.  Cells outside the shape are never observed:
    every read and write goes through [getitem2] and [setitem2], which
    raise [IndexError] there as indexing does in PyTorch.  The cells are
    binary64 values; the constants [0] and [1] that the program writes are
    exact in every float dtype, so the dtype is not tracked here. *)

Record Matrix : Type := mkMatrix {
  nrows : nat;
  ncols : nat;
  m_device : Device;
  cell : nat -> nat -> float
}.

(** An array as [np.load] returns it from a table file: two-dimensional,
    of NumPy's default float dtype, on the host.  Its shape is whatever the
    file holds; the program does not check it. *)
Record NdArray : Type := mkNdArray {
  a_rows : nat;
  a_cols : nat;
  a_cell : nat -> nat -> float
}.

Definition cpu : Device := "cpu".

(** [torch.from_numpy(a)] *)
Definition torch_from_numpy (a : NdArray) : Matrix :=
  {| nrows := a_rows a; ncols := a_cols a; m_device := cpu; cell := a_cell a |}.

(** [torch.ones((r, c))], on the host. *)
Definition torch_ones (r c : nat) : Matrix :=
  {| nrows := r; ncols := c; m_device := cpu; cell := fun _ _ => 1%float |}.

Section MatrixPrimitives.
Context {T : Torch}.

(** [m.to(device)]: a [RuntimeError] for a device that cannot be used. *)
Definition to_device (m : Matrix) (d : Device) : Exc Matrix :=
  if device_available d then
    inr {| nrows := nrows m; ncols := ncols m; m_device := d; cell := cell m |}
  else inl (RuntimeError (error_text (DeviceUnavailable d))).

(** [torch.ones((r, c), dtype=torch.float64, device=device)] *)
Definition torch_ones_on (r c : nat) (d : Device) : Exc Matrix :=
  if device_available d then
    inr {| nrows := r; ncols := c; m_device := d; cell := fun _ _ => 1%float |}
  else inl (RuntimeError (error_text (DeviceUnavailable d))).

(** [torch.cat([a, b], dim)]: the sizes must agree except along [dim], and
    the operands must live on one device. *)
Definition torch_cat (a b : Matrix) (dim : nat) : Exc Matrix :=
  if negb (String.eqb (m_device a) (m_device b)) then
    inl (RuntimeError (error_text (DevicesDiffer (m_device a) (m_device b))))
  else
    match dim with
    | 0 =>
        if ncols a =? ncols b then
          inr {| nrows := nrows a + nrows b; ncols := ncols a; m_device := m_device a;
                 cell := fun i j => if i <? nrows a then cell a i j
                                    else cell b (i - nrows a) j |}
        else inl (RuntimeError (error_text (CatSizeMismatch 0 (ncols a) (ncols b))))
    | 1 =>
        if nrows a =? nrows b then
          inr {| nrows := nrows a; ncols := ncols a + ncols b; m_device := m_device a;
                 cell := fun i j => if j <? ncols a then cell a i j
                                    else cell b i (j - ncols a) |}
        else inl (RuntimeError (error_text (CatSizeMismatch 1 (nrows a) (nrows b))))
    | _ => inl (IndexError (error_text (DimensionOutOfRange dim)))
    end.

(** The error of indexing [m[i][j]] out of the shape: [m[i]] is tried
    first. *)
Definition index_error (m : Matrix) (i j : nat) : Exception :=
  if i <? nrows m then IndexError (error_text (IndexOutOfBounds j 0 (ncols m)))
  else IndexError (error_text (IndexOutOfBounds i 0 (nrows m))).

(** [m[i][j] = v] *)
Definition setitem2 (m : Matrix) (i j : nat) (v : float) : Exc Matrix :=
  if (i <? nrows m) && (j <? ncols m) then
    inr {| nrows := nrows m; ncols := ncols m; m_device := m_device m;
           cell := fun i' j' => if (i' =? i) && (j' =? j) then v else cell m i' j' |}
  else inl (index_error m i j).

(** [m[i][j]] *)
Definition getitem2 (m : Matrix) (i j : nat) : Exc float :=
  if (i <? nrows m) && (j <? ncols m) then inr (cell m i j)
  else inl (index_error m i j).

(** [m[i][j] == v] of Python: the entry exists and compares equal as a
    float (IEEE equality, so a negative zero equals zero and a NaN equals
    nothing). *)
Definition entry_eq (m : Matrix) (i j : nat) (v : float) : Prop :=
  exists x, getitem2 m i j = inr x /\ PrimFloat.eqb x v = true.

End MatrixPrimitives.

(** ** Activation tensors

    Predictions and labels are tensors of any rank and dtype.  Their
    shape and dtype are concrete; their elements are kept in the storage
    of [Torch]. *)

Record Tensor {T : Torch} : Type := mkTensor {
  shape : list nat;
  dtype : DType;
  data : Storage
}.
Arguments mkTensor {T} shape dtype data.

Section TensorPrimitives.
Context {T : Torch}.

(** [torch.is_floating_point(t)] *)
Definition is_floating_point (t : Tensor) : bool :=
  match dtype t with
  | float16 | bfloat16 | float32 | float64 => true
  | _ => false
  end.

(** [s[i]] on a [torch.Size], which is a Python tuple. *)
Definition Size_getitem (s : list nat) (i : nat) : Exc nat :=
  match nth_error s i with
  | Some n => inr n
  | None => inl (IndexError "tuple index out of range")
  end.

(** The shape without its dimension [dim]. *)
Definition drop_dim (s : list nat) (dim : nat) : list nat :=
  firstn dim s ++ skipn (S dim) s.

(** [torch.squeeze(t, dim)]: the dimension is removed when its size is 1,
    and the tensor is returned as it is otherwise.  The elements stay in
    place: the storage is the same. *)
Definition torch_squeeze (t : Tensor) (dim : nat) : Exc Tensor :=
  match nth_error (shape t) dim with
  | Some 1 => inr {| shape := drop_dim (shape t) dim; dtype := dtype t; data := data t |}
  | Some _ => inr t
  | None =>
      match shape t, dim with
      | [], 0 => inr t
      | _, _ => inl (IndexError (error_text (DimensionOutOfRange dim)))
      end
  end.

(** [t.to(dtype=d)]: the tensor itself when it has the dtype already. *)
Definition Tensor_to (t : Tensor) (d : DType) : Tensor :=
  if DType_eqb (dtype t) d then t
  else {| shape := shape t; dtype := d; data := cast_storage (dtype t) d (data t) |}.

(** [t.long()] *)
Definition Tensor_long (t : Tensor) : Tensor := Tensor_to t int64.

(** The dtypes [torch.argmax] accepts: never the boolean one. *)
Definition argmax_accepts (dt : DType) : bool :=
  negb (DType_eqb dt bool_) && argmax_implemented dt.

(** [torch.argmax(t, dim=dim)]: the dimension is reduced away and the
    result holds indices.  Reducing a dimension of size 0 is an
    [IndexError]; a dtype without an arg-max kernel is a [RuntimeError]. *)
Definition torch_argmax (t : Tensor) (dim : nat) : Exc Tensor :=
  match nth_error (shape t) dim with
  | Some 0 => inl (IndexError (error_text (ArgmaxOfEmptyDimension dim)))
  | Some _ =>
      if argmax_accepts (dtype t) then
        inr {| shape := drop_dim (shape t) dim; dtype := int64;
               data := argmax_storage (shape t) dim (data t) |}
      else inl (RuntimeError (error_text (ArgmaxNotImplemented (dtype t))))
  | None => inl (IndexError (error_text (DimensionOutOfRange dim)))
  end.

End TensorPrimitives.

(** [str(s)] for a [torch.Size], as an f-string renders it. *)
Definition str_nat (n : nat) : string := NilEmpty.string_of_uint (Nat.to_uint n).

Fixpoint join_comma (l : list string) : string :=
  match l with
  | [] => ""
  | [x] => x
  | x :: rest => (x ++ ", " ++ join_comma rest)%string
  end.

Definition str_Size (s : list nat) : string :=
  ("torch.Size([" ++ join_comma (map str_nat s) ++ "])")%string.

(** ** The environment: external losses, table files, PyTorch version *)

(** The arguments of [monai.losses.DiceLoss]. *)
Record DiceLossArgs {T : Torch} : Type := mkDiceLossArgs {
  dl_include_background : bool;
  dl_to_onehot_y : bool;
  dl_sigmoid : bool;
  dl_softmax : bool;
  dl_other_act : option (Tensor -> Tensor);
  dl_squared_pred : bool;
  dl_jaccard : bool;
  dl_reduction : string;
  dl_smooth_nr : float;
  dl_smooth_dr : float;
  dl_batch : bool
}.

(** What the program imports and calls but does not define: the three
    loss classes (their constructors, which validate their arguments, and
    their [forward]), [np.load] on the file system the program runs in, and
    [monai.utils.pytorch_after] on the installed PyTorch. *)
Class Externals {T : Torch} : Type := {
  DiceLoss : Type;
  CrossEntropyLoss : Type;
  WassersteinDiceLoss : Type;
  DiceLoss_new : DiceLossArgs -> Exc DiceLoss;
  CrossEntropyLoss_new : forall (weight : option Tensor) (reduction : string), Exc CrossEntropyLoss;
  monai_gwdl_new : forall (dist_matrix : Matrix) (weighting_mode reduction : string),
      Exc WassersteinDiceLoss;
  DiceLoss_call : DiceLoss -> forall (input target : Tensor), Exc Tensor;
  CrossEntropyLoss_call : CrossEntropyLoss -> forall (input target : Tensor), Exc Tensor;
  monai_gwdl_call : WassersteinDiceLoss -> forall (input target : Tensor), Exc Tensor;
  np_load : forall (path : string), Exc NdArray;
  pytorch_after : forall (major minor : nat), bool
}.

(** What an observer of a run sees, in order: the lines printed, the paths
    [np.load] is called on and the calls into the external losses with
    their arguments. *)
Inductive Event {T : Torch} {X : Externals} : Type :=
| Printed (line : string)
| LoadCalled (path : string)
| DiceCalled (d : DiceLoss) (input target : Tensor)
| CrossEntropyCalled (c : CrossEntropyLoss) (input target : Tensor)
| WassersteinDiceCalled (g : WassersteinDiceLoss) (input target : Tensor).

(** ** The monad of the program: a trace and an exception or a value *)

Section Monad.
Context {T : Torch} {X : Externals}.

Definition M (A : Type) : Type := (list Event * Exc A)%type.

Definition ret {A : Type} (a : A) : M A := ([], inr a).

Definition raise {A : Type} (e : Exception) : M A := ([], inl e).

Definition bind {A B : Type} (m : M A) (f : A -> M B) : M B :=
  match snd m with
  | inl e => (fst m, inl e)
  | inr a => (fst m ++ fst (f a), snd (f a))
  end.

(** A primitive that raises or returns and leaves no trace. *)
Definition lift {A : Type} (x : Exc A) : M A := ([], x).

(** [print(line)] *)
Definition print (line : string) : M unit := ([Printed line], inr tt).

(** [np.load(path)] *)
Definition load (path : string) : M NdArray := ([LoadCalled path], np_load path).

(** [d(input, target)] for each of the external losses. *)
Definition call_dice (d : DiceLoss) (input target : Tensor) : M Tensor :=
  ([DiceCalled d input target], DiceLoss_call d input target).

Definition call_cross_entropy (c : CrossEntropyLoss) (input target : Tensor) : M Tensor :=
  ([CrossEntropyCalled c input target], CrossEntropyLoss_call c input target).

Definition call_gwdl (g : WassersteinDiceLoss) (input target : Tensor) : M Tensor :=
  ([WassersteinDiceCalled g input target], monai_gwdl_call g input target).

End Monad.

Declare Scope prog_scope.
Delimit Scope prog_scope with prog.
Notation "x <- c ;; k" := (bind c (fun x => k))
  (at level 61, c at next level, right associativity) : prog_scope.
Notation "c ;;; k" := (bind c (fun _ => k))
  (at level 61, right associativity) : prog_scope.
Local Open Scope prog_scope.

(** ** [get_tooth_dist_matrix] and [get_equall_dist_matrix] *)

Definition wasserstein_matrix_npy : string :=
  "ToothSwinUNETR/losses/wasserstein_matrix.npy".

Definition wasserstein_matrix_equal_npy : string :=
  "ToothSwinUNETR/losses/wasserstein_matrix_equal.npy".

Section DistanceMatrix.
Context {T : Torch} {X : Externals}.

(** [def get_tooth_dist_matrix(device, quarter_penalty : bool = "True")];
    [None] for [quarter_penalty] is the call that omits the argument. *)
Definition get_tooth_dist_matrix (device : Device) (quarter_penalty : option PyObj)
  : M Matrix :=
  let quarter_penalty :=
    match quarter_penalty with Some v => v | None => PyStr "True" end in
  dist_matrix <-
    (if truthy quarter_penalty then
       a <- load wasserstein_matrix_npy ;;
       dist_matrix <- lift (to_device (torch_from_numpy a) device) ;;
       print "Using intra quarters penalty" ;;;
       ret dist_matrix
     else
       a <- load wasserstein_matrix_equal_npy ;;
       dist_matrix <- lift (to_device (torch_from_numpy a) device) ;;
       print "Using equal quarters - no intra quarter penalty" ;;;
       ret dist_matrix) ;;
  (* add background class - all ones *)
  row <- lift (to_device (torch_ones 1 32) device) ;;
  dist_matrix <- lift (torch_cat row dist_matrix 0) ;;
  column <- lift (to_device (torch_ones 33 1) device) ;;
  dist_matrix <- lift (torch_cat column dist_matrix 1) ;;
  dist_matrix <- lift (setitem2 dist_matrix 0 0 0%float) ;;
  ret dist_matrix.

End DistanceMatrix.

Section EqualMatrix.
Context {T : Torch}.

(** [def get_equall_dist_matrix(device)]: nothing is loaded, printed or
    called, so the function raises or returns and has no trace. *)
Definition get_equall_dist_matrix (device : Device) : Exc Matrix :=
  match torch_ones_on 33 33 device with
  | inr dist_matrix => setitem2 dist_matrix 0 0 0%float
  | inl e => inl e
  end.

End EqualMatrix.

(** ** [class GWDLCELoss(nn.Module)] *)

Module GWDLCELoss.
Section Methods.
Context {T : Torch} {X : Externals}.

(** The attributes [__init__] sets.  [focal_loss] is not among them: the
    line that would set it is commented out in the source. *)
Record t : Type := mk {
  lambda_dice : float;
  lambda_ce : float;
  cross_entropy : CrossEntropyLoss;
  generalized_dice : WassersteinDiceLoss
}.

Definition weighting_mode_default : string := "GDL".
Definition reduction_default : string := "mean".

(** [def __init__(self, dist_matrix, ce_weight, lambda_dice, lambda_ce,
    weighting_mode='GDL', reduction='mean')] *)
Definition __init__ (dist_matrix : Matrix) (ce_weight : option Tensor)
    (lambda_dice lambda_ce : float) (weighting_mode reduction : string) : M t :=
  cross_entropy <- lift (CrossEntropyLoss_new ce_weight reduction) ;;
  generalized_dice <- lift (monai_gwdl_new dist_matrix weighting_mode reduction) ;;
  ret {| lambda_dice := lambda_dice; lambda_ce := lambda_ce;
         cross_entropy := cross_entropy; generalized_dice := generalized_dice |}.

(** [def ce(self, input, target)] *)
Definition ce (self : t) (input target : Tensor) : M Tensor :=
  n_pred_ch <- lift (Size_getitem (shape input) 1) ;;
  n_target_ch <- lift (Size_getitem (shape target) 1) ;;
  target <-
    (if negb (n_pred_ch =? n_target_ch) && (n_target_ch =? 1) then
       target <- lift (torch_squeeze target 1) ;;
       ret (Tensor_long target)
     else if negb (is_floating_point target) then
       ret (Tensor_to target (dtype input))
     else ret target) ;;
  call_cross_entropy (cross_entropy self) input target.

(** [def fl(self, input, target)]: reads [self.focal_loss], which no
    line sets. *)
Definition fl (self : t) (input target : Tensor) : M Tensor :=
  raise (AttributeError "'GWDLCELoss' object has no attribute 'focal_loss'").

(** [def gwdl(self, y_pred, y_true)] *)
Definition gwdl (self : t) (y_pred y_true : Tensor) : M Tensor :=
  call_gwdl (generalized_dice self) y_pred y_true.

(** [def forward(self, y_pred, y_true)] *)
Definition forward (self : t) (y_pred y_true : Tensor) : M (Tensor * Tensor) :=
  ce_loss <- ce self y_pred y_true ;;
  gwdl_loss <- gwdl self y_pred y_true ;;
  ret (gwdl_loss, ce_loss).

End Methods.
End GWDLCELoss.

(** ** [monai.utils.look_up_option] on [monai.utils.DiceCEReduction] *)

Inductive DiceCEReduction : Type := MEAN | SUM.

Definition DiceCEReduction_value (r : DiceCEReduction) : string :=
  match r with MEAN => "mean" | SUM => "sum" end.

(** Modelled from the spec: [look_up_option] and the enumeration
    [DiceCEReduction] are MONAI's and are not part of the source file.  The
    specification says of them that the reduction mode must be one of the
    fixed enumeration {mean, sum} and that an unrecognized value fails with
    a lookup error; MONAI raises a [ValueError] for it. *)
Definition look_up_option (opt_str : string) : Exc DiceCEReduction :=
  if String.eqb opt_str (DiceCEReduction_value MEAN) then inr MEAN
  else if String.eqb opt_str (DiceCEReduction_value SUM) then inr SUM
  else inl (ValueError ("Unsupported option '" ++ opt_str ++ "'")%string).

(** ** [class DiceCELoss(_Loss)] *)

Module DiceCELoss.
Section Methods.
Context {T : Torch} {X : Externals}.

Record t : Type := mk {
  dice : DiceLoss;
  cross_entropy : CrossEntropyLoss;
  lambda_dice : float;
  lambda_ce : float;
  old_pt_ver : bool
}.

(** The parameters of [__init__]. *)
Record Args : Type := mkArgs {
  include_background : bool;
  to_onehot_y : bool;
  sigmoid : bool;
  softmax : bool;
  other_act : option (Tensor -> Tensor);
  squared_pred : bool;
  jaccard : bool;
  reduction : string;
  smooth_nr : float;
  smooth_dr : float;
  batch : bool;
  ce_weight : option Tensor;
  a_lambda_dice : float;
  a_lambda_ce : float
}.

(** Their default values, as the signature gives them. *)
Definition defaults : Args :=
  {| include_background := true;
     to_onehot_y := false;
     sigmoid := false;
     softmax := false;
     other_act := None;
     squared_pred := false;
     jaccard := false;
     reduction := "mean";
     smooth_nr := 1e-5%float;
     smooth_dr := 1e-5%float;
     batch := false;
     ce_weight := None;
     a_lambda_dice := 1.0%float;
     a_lambda_ce := 1.0%float |}.

(** The keyword arguments that [__init__] passes to [DiceLoss]. *)
Definition dice_arguments (a : Args) (reduction : string) : DiceLossArgs :=
  {| dl_include_background := include_background a;
     dl_to_onehot_y := to_onehot_y a;
     dl_sigmoid := sigmoid a;
     dl_softmax := softmax a;
     dl_other_act := other_act a;
     dl_squared_pred := squared_pred a;
     dl_jaccard := jaccard a;
     dl_reduction := reduction;
     dl_smooth_nr := smooth_nr a;
     dl_smooth_dr := smooth_dr a;
     dl_batch := batch a |}.

(** [def __init__(self, ...)].  [super().__init__()] sets the attributes
    of [_Loss] and cannot fail; the statements after it follow in the
    order of the source. *)
Definition __init__ (a : Args) : M t :=
  member <- lift (look_up_option (reduction a)) ;;
  let reduction := DiceCEReduction_value member in
  dice <- lift (DiceLoss_new (dice_arguments a reduction)) ;;
  cross_entropy <- lift (CrossEntropyLoss_new (ce_weight a) reduction) ;;
  if PrimFloat.ltb (a_lambda_dice a) 0.0 then
    raise (ValueError "lambda_dice should be no less than 0.0.")
  else if PrimFloat.ltb (a_lambda_ce a) 0.0 then
    raise (ValueError "lambda_ce should be no less than 0.0.")
  else
    ret {| dice := dice; cross_entropy := cross_entropy;
           lambda_dice := a_lambda_dice a; lambda_ce := a_lambda_ce a;
           old_pt_ver := negb (pytorch_after 1 10) |}.

(** [def ce(self, input, target)] *)
Definition ce (self : t) (input target : Tensor) : M Tensor :=
  n_pred_ch <- lift (Size_getitem (shape input) 1) ;;
  n_target_ch <- lift (Size_getitem (shape target) 1) ;;
  target <-
    (if negb (n_pred_ch =? n_target_ch) && (n_target_ch =? 1) then
       target <- lift (torch_squeeze target 1) ;;
       ret (Tensor_long target)
     else if old_pt_ver self then
       lift (torch_argmax target 1)
     else if negb (is_floating_point target) then
       ret (Tensor_to target (dtype input))
     else ret target) ;;
  call_cross_entropy (cross_entropy self) input target.

(** The message of the [ValueError] that [forward] raises. *)
Definition dimension_message (input target : Tensor) : string :=
  ("the number of dimensions for input and target should be the same, "
   ++ "got shape " ++ str_Size (shape input) ++ " and " ++ str_Size (shape target) ++ ".")%string.

(** [def forward(self, input, target)] *)
Definition forward (self : t) (input target : Tensor) : M (Tensor * Tensor) :=
  if negb (List.length (shape input) =? List.length (shape target)) then
    raise (ValueError (dimension_message input target))
  else
    dice_loss <- call_dice (dice self) input target ;;
    ce_loss <- ce self input target ;;
    ret (dice_loss, ce_loss).

End Methods.
End DiceCELoss.

(** ** The specification's wording, as definitions to compare with *)

(** The background-inclusive matrix in the specification's words: one
    row and one column of ones before the base table, and the
    background-to-background cell set to 0. *)
Definition with_background (base : nat -> nat -> float) (i j : nat) : float :=
  if (i =? 0) && (j =? 0) then 0%float
  else if (i =? 0) || (j =? 0) then 1%float
  else base (i - 1) (j - 1).

Section BackgroundMatrix.
Context {T : Torch}.

(** What it is for [m] to be the background-inclusive matrix over [base]:
    33 by 33, and each cell in range reads as the specification words it. *)
Definition background_matrix (m : Matrix) (base : nat -> nat -> float) : Prop :=
  nrows m = 33 /\ ncols m = 33 /\
  forall i j, i < 33 -> j < 33 -> getitem2 m i j = inr (with_background base i j).

(** The size of the matrix and its background row and column. *)
Definition zero_corner_unit_border (m : Matrix) : Prop :=
  nrows m = 33 /\ ncols m = 33 /\
  entry_eq m 0 0 0%float /\
  forall k, 0 < k < 33 -> entry_eq m 0 k 1%float /\ entry_eq m k 0 1%float.

(** The real classes of [m] read the base table, shifted by one. *)
Definition over_table (m : Matrix) (base : nat -> nat -> float) : Prop :=
  forall i j, 0 < i < 33 -> 0 < j < 33 -> getitem2 m i j = inr (base (i - 1) (j - 1)).

End BackgroundMatrix.

(** The table file and the diagnostic line of each variant. *)
Definition table_of (quarter_penalty : PyObj) : string :=
  if truthy quarter_penalty then wasserstein_matrix_npy else wasserstein_matrix_equal_npy.

Definition line_of (quarter_penalty : PyObj) : string :=
  if truthy quarter_penalty then "Using intra quarters penalty"
  else "Using equal quarters - no intra quarter penalty".

Section Reconciliation.
Context {T : Torch}.

(** The channel count of a tensor of shape (Batch, Channels, ...). *)
Definition channels (t : Tensor) : option nat := nth_error (shape t) 1.

(** A reconciliation rule: when it applies to (input, target) and what it
    makes of the target. *)
Record Rule : Type := mkRule {
  applies : Tensor -> Tensor -> bool;
  rewrites : Tensor -> Tensor -> Exc Tensor
}.

(** Rules tried in order; the first that applies wins, and a target that
    no rule applies to is left as it is. *)
Fixpoint first_match (rules : list Rule) (input target : Tensor) : Exc Tensor :=
  match rules with
  | [] => inr target
  | r :: rest =>
      if applies r input target then rewrites r input target
      else first_match rest input target
  end.

(** Rule 1: the channel counts differ and the target has one channel:
    squeeze the channel dimension, cast to the class-index dtype. *)
Definition rule_squeeze : Rule :=
  {| applies := fun input target =>
       match channels input, channels target with
       | Some n_pred_ch, Some n_target_ch => negb (n_pred_ch =? n_target_ch) && (n_target_ch =? 1)
       | _, _ => false
       end;
     rewrites := fun _ target =>
       match torch_squeeze target 1 with
       | inr squeezed => inr (Tensor_long squeezed)
       | inl e => inl e
       end |}.

(** Rule 2 of [DiceCELoss]: an older PyTorch: arg-max over the channels. *)
Definition rule_argmax (old_version : bool) : Rule :=
  {| applies := fun _ _ => old_version;
     rewrites := fun _ target => torch_argmax target 1 |}.

(** Last rule: a target that is not float-valued is cast to the dtype of
    the input. *)
Definition rule_cast : Rule :=
  {| applies := fun _ target => negb (is_floating_point target);
     rewrites := fun input target => inr (Tensor_to target (dtype input)) |}.

Definition DiceCE_rules (old_version : bool) : list Rule :=
  [rule_squeeze; rule_argmax old_version; rule_cast].

Definition GWDLCE_rules : list Rule := [rule_squeeze; rule_cast].

End Reconciliation.

Section Delegation.
Context {T : Torch} {X : Externals}.

(** The end of both [ce] methods: the reconciled target goes to the
    external cross entropy with the input as it came, and an error of the
    reconciliation is raised before any call. *)
Definition delegate (c : CrossEntropyLoss) (input : Tensor) (reconciled : Exc Tensor)
  : M Tensor :=
  match reconciled with
  | inr target => call_cross_entropy c input target
  | inl e => raise e
  end.

End Delegation.

(** ** A concrete environment to run the program in

    Tensors whose elements are small integers (label maps, one-hot
    masks), for which every conversion between dtypes is exact up to the
    wrap-around of the integer dtypes; stand-ins for the external losses
    that remember their arguments and return a fixed scalar; a file system
    that holds the two tables; an installed PyTorch version. *)

Module Lab.

Definition wrap_signed (bits : Z) (z : Z) : Z :=
  ((z + 2 ^ (bits - 1)) mod 2 ^ bits - 2 ^ (bits - 1))%Z.

Definition cast_Z (dst : DType) (z : Z) : Z :=
  match dst with
  | bool_ => if (z =? 0)%Z then 0%Z else 1%Z
  | uint8 => (z mod 256)%Z
  | int8 => wrap_signed 8 z
  | int16 => wrap_signed 16 z
  | int32 => wrap_signed 32 z
  | int64 => wrap_signed 64 z
  | float16 | bfloat16 | float32 | float64 => z
  end.

Definition prod (l : list nat) : nat := fold_right Nat.mul 1 l.

(** The index of the first maximal element of a list. *)
Fixpoint argmax_from (best : Z) (best_i i : nat) (l : list Z) : nat :=
  match l with
  | [] => best_i
  | x :: rest =>
      if (best <? x)%Z then argmax_from x i (S i) rest
      else argmax_from best best_i (S i) rest
  end.

Definition argmax_list (l : list Z) : nat :=
  match l with
  | [] => 0
  | x :: rest => argmax_from x 0 1 rest
  end.

(** Arg-max along [dim] of a row-major storage. *)
Definition argmax_Z (shape : list nat) (dim : nat) (d : list Z) : list Z :=
  let outer := prod (firstn dim shape) in
  let n := nth dim shape 0 in
  let inner := prod (skipn (S dim) shape) in
  flat_map (fun o =>
    map (fun s =>
      Z.of_nat (argmax_list (map (fun c => nth ((o * n + c) * inner + s) d 0%Z) (seq 0 n))))
      (seq 0 inner))
    (seq 0 outer).

(** A machine with two accelerators. *)
Definition devices : list Device := ["cpu"; "cuda:0"; "cuda:1"].

(** The messages of this environment say which error it was; they are
    not the text of a release. *)
Definition messages (e : TorchError) : string :=
  match e with
  | DeviceUnavailable d => ("device not available: " ++ d)%string
  | DevicesDiffer d1 d2 => ("tensors on different devices: " ++ d1 ++ ", " ++ d2)%string
  | CatSizeMismatch dim expected got =>
      ("sizes differ outside dimension " ++ str_nat dim ++ ": expected "
       ++ str_nat expected ++ ", got " ++ str_nat got)%string
  | DimensionOutOfRange dim => ("dimension out of range: " ++ str_nat dim)%string
  | IndexOutOfBounds index dim size =>
      ("index " ++ str_nat index ++ " out of bounds for dimension " ++ str_nat dim
       ++ " with size " ++ str_nat size)%string
  | ArgmaxOfEmptyDimension dim =>
      ("argmax over dimension " ++ str_nat dim ++ " of size 0")%string
  | ArgmaxNotImplemented _ => "argmax not implemented for the dtype"
  end.

Definition torch : Torch :=
  {| Storage := list Z;
     cast_storage := fun _ dst d => map (cast_Z dst) d;
     argmax_storage := argmax_Z;
     device_available := fun d => existsb (String.eqb d) devices;
     argmax_implemented := fun _ => true;
     error_text := messages |}.

Definition scalar (z : Z) : @Tensor torch :=
  @mkTensor torch [] float32 [z].

(** The check of [monai.losses.DiceLoss.__init__] on its activations. *)
Definition dice_init (a : @DiceLossArgs torch) : Exc (@DiceLossArgs torch) :=
  let count (b : bool) := if b then 1 else 0 in
  if 1 <? count (dl_sigmoid a) + count (dl_softmax a)
          + count (match dl_other_act a with Some _ => true | None => false end)
  then inl (ValueError
    "Incompatible values: more than 1 of [sigmoid=True, softmax=True, other_act is not None].")
  else inr a.

(** The two tables: quarter distances that vanish on the diagonal, and
    the table of ones. *)
Definition quarter_table : NdArray :=
  {| a_rows := 32; a_cols := 32;
     a_cell := fun i j => if i =? j then 0%float
                          else if i / 8 =? j / 8 then 0.5%float else 1%float |}.

Definition equal_table : NdArray :=
  {| a_rows := 32; a_cols := 32; a_cell := fun _ _ => 1%float |}.

Definition files (path : string) : Exc NdArray :=
  if String.eqb path wasserstein_matrix_npy then inr quarter_table
  else if String.eqb path wasserstein_matrix_equal_npy then inr equal_table
  else inl (FileNotFoundError path).

(** The environment with PyTorch [major.minor] installed. *)
Definition externals (major minor : nat) : @Externals torch :=
  {| DiceLoss := @DiceLossArgs torch;
     CrossEntropyLoss := (option (@Tensor torch) * string)%type;
     WassersteinDiceLoss := (Matrix * string * string)%type;
     DiceLoss_new := dice_init;
     CrossEntropyLoss_new := fun weight reduction => inr (weight, reduction);
     monai_gwdl_new := fun dist_matrix weighting_mode reduction =>
       inr (dist_matrix, weighting_mode, reduction);
     DiceLoss_call := fun _ _ _ => inr (scalar 1);
     CrossEntropyLoss_call := fun _ _ _ => inr (scalar 2);
     monai_gwdl_call := fun _ _ _ => inr (scalar 3);
     np_load := files;
     pytorch_after := fun M m => (M <? major) || ((M =? major) && (m <=? minor)) |}.

(** A batch of two label volumes of 4 by 4 by 4 voxels with classes in
    {0, 1, 2}, its one-hot encoding over three channels, and a prediction
    of the same shape. *)
Definition label_at (i : nat) : nat := i mod 3.

Definition labels : @Tensor torch :=
  @mkTensor torch [2; 1; 4; 4; 4] int64 (map (fun i => Z.of_nat (label_at i)) (seq 0 128)).

Definition one_hot : @Tensor torch :=
  @mkTensor torch [2; 3; 4; 4; 4] float32
    (flat_map (fun b =>
       flat_map (fun c =>
         map (fun s => if label_at (b * 64 + s) =? c then 1%Z else 0%Z) (seq 0 64))
         (seq 0 3))
       (seq 0 2)).

Definition prediction : @Tensor torch :=
  @mkTensor torch [2; 3; 4; 4; 4] float32 (repeat 0%Z 384).

(** [DiceCELoss(lambda_dice=-0.1)], [DiceCELoss(lambda_dice=0.0,
    lambda_ce=0.0)] and [DiceCELoss(reduction="none")]. *)
Definition with_weights (lambda_dice lambda_ce : float) (reduction : string)
  : @DiceCELoss.Args torch :=
  let d := @DiceCELoss.defaults torch in
  @DiceCELoss.mkArgs torch
    (DiceCELoss.include_background d) (DiceCELoss.to_onehot_y d)
    (DiceCELoss.sigmoid d) (DiceCELoss.softmax d) (DiceCELoss.other_act d)
    (DiceCELoss.squared_pred d) (DiceCELoss.jaccard d) reduction
    (DiceCELoss.smooth_nr d) (DiceCELoss.smooth_dr d) (DiceCELoss.batch d)
    (DiceCELoss.ce_weight d) lambda_dice lambda_ce.

Definition negative_dice_args : @DiceCELoss.Args torch :=
  with_weights (-0.1)%float 1.0%float "mean".

Definition zero_weight_args : @DiceCELoss.Args torch :=
  with_weights 0.0%float 0.0%float "mean".

Definition no_reduction_args : @DiceCELoss.Args torch :=
  with_weights 1.0%float 1.0%float "none".

(** A label map of one rank less than the prediction. *)
Definition flat_labels : @Tensor torch :=
  @mkTensor torch [2; 4; 4; 4] int64 (repeat 0%Z 128).

(** A [DiceCELoss] and a [GWDLCELoss] as their constructors leave them
    under PyTorch [major.minor], with the default arguments. *)
Definition dice_ce (major minor : nat) : @DiceCELoss.t torch (externals major minor) :=
  @DiceCELoss.mk torch (externals major minor)
    (@DiceCELoss.dice_arguments torch DiceCELoss.defaults "mean")
    (None, "mean") 1%float 1%float
    (negb (@pytorch_after torch (externals major minor) 1 10)).

Definition gwdl_ce (major minor : nat) : @GWDLCELoss.t torch (externals major minor) :=
  @GWDLCELoss.mk torch (externals major minor) 1%float 1%float
    (None, "mean") (torch_ones 33 33, "GDL", "mean").

End Lab.

(** ** Environments in which something fails

    The concrete tensors of [Lab] again, with the file system and the
    outcome of each external [forward] chosen by the caller, so that the
    paths of the program that end in an exception can be run. *)

Module Faulty.

Definition externals (files : string -> Exc NdArray)
    (dice_out ce_out gwdl_out : Exc (@Tensor Lab.torch)) (major minor : nat)
  : @Externals Lab.torch :=
  {| DiceLoss := @DiceLossArgs Lab.torch;
     CrossEntropyLoss := (option (@Tensor Lab.torch) * string)%type;
     WassersteinDiceLoss := (Matrix * string * string)%type;
     DiceLoss_new := Lab.dice_init;
     CrossEntropyLoss_new := fun weight reduction => inr (weight, reduction);
     monai_gwdl_new := fun dist_matrix weighting_mode reduction =>
       inr (dist_matrix, weighting_mode, reduction);
     DiceLoss_call := fun _ _ _ => dice_out;
     CrossEntropyLoss_call := fun _ _ _ => ce_out;
     monai_gwdl_call := fun _ _ _ => gwdl_out;
     np_load := files;
     pytorch_after := fun M m => (M <? major) || ((M =? major) && (m <=? minor)) |}.

(** A checkout without the table files. *)
Definition no_files (path : string) : Exc NdArray :=
  inl (FileNotFoundError path).

(** A file system that holds the same table under every path. *)
Definition only (table : NdArray) (path : string) : Exc NdArray := inr table.

(** Tables of 32 rows and 28 columns, and of 28 rows and 32 columns. *)
Definition narrow_table : NdArray :=
  {| a_rows := 32; a_cols := 28; a_cell := fun _ _ => 1%float |}.

Definition short_table : NdArray :=
  {| a_rows := 28; a_cols := 32; a_cell := fun _ _ => 1%float |}.

(** A table that is not symmetric. *)
Definition skew_table : NdArray :=
  {| a_rows := 32; a_cols := 32;
     a_cell := fun i j => if i <? j then 0.5%float else 1%float |}.

(** The environment of [Lab] with every external [forward] returning,
    but for the ones replaced. *)
Definition returning : @Externals Lab.torch :=
  externals Lab.files (inr (Lab.scalar 1)) (inr (Lab.scalar 2)) (inr (Lab.scalar 3)) 2 0.

Definition dice_raising : @Externals Lab.torch :=
  externals Lab.files (inl (RuntimeError "dice")) (inr (Lab.scalar 2))
    (inr (Lab.scalar 3)) 2 0.

Definition ce_raising : @Externals Lab.torch :=
  externals Lab.files (inr (Lab.scalar 1)) (inl (RuntimeError "cross entropy"))
    (inr (Lab.scalar 3)) 2 0.

Definition gwdl_raising : @Externals Lab.torch :=
  externals Lab.files (inr (Lab.scalar 1)) (inr (Lab.scalar 2))
    (inl (RuntimeError "wasserstein")) 2 0.

(** The two loss objects in an environment [X]. *)
Definition dice_ce (X : @Externals Lab.torch) (dice : @DiceLoss Lab.torch X)
    (cross_entropy : @CrossEntropyLoss Lab.torch X) (old_pt_ver : bool)
  : @DiceCELoss.t Lab.torch X :=
  @DiceCELoss.mk Lab.torch X dice cross_entropy 1%float 1%float old_pt_ver.

Definition gwdl_ce (X : @Externals Lab.torch)
    (cross_entropy : @CrossEntropyLoss Lab.torch X)
    (generalized_dice : @WassersteinDiceLoss Lab.torch X)
  : @GWDLCELoss.t Lab.torch X :=
  @GWDLCELoss.mk Lab.torch X 1%float 1%float cross_entropy generalized_dice.

(** The external objects of these environments, as their constructors
    return them for the default arguments. *)
Definition dice_obj : @DiceLossArgs Lab.torch :=
  @DiceCELoss.dice_arguments Lab.torch DiceCELoss.defaults "mean".

Definition ce_obj : (option (@Tensor Lab.torch) * string)%type := (None, "mean").

Definition gwdl_obj : (Matrix * string * string)%type :=
  (torch_ones 33 33, "GDL", "mean").

(** Tensors of rank 1, and a target with no channel at all. *)
Definition vector : @Tensor Lab.torch := @mkTensor Lab.torch [5] float32 (repeat 0%Z 5).

Definition no_channel : @Tensor Lab.torch := @mkTensor Lab.torch [2; 0; 4] float32 [].

Definition slab : @Tensor Lab.torch := @mkTensor Lab.torch [2; 3; 4] float32 (repeat 0%Z 24).

(** Labels of a narrow integer dtype with the channels of the prediction. *)
Definition byte_mask : @Tensor Lab.torch :=
  @mkTensor Lab.torch [2; 3; 4; 4; 4] uint8 (data Lab.one_hot).

(** [DiceCELoss(sigmoid=True, softmax=True, lambda_dice=-1.0,
    lambda_ce=-1.0)] and [DiceCELoss(lambda_dice=-1.0, lambda_ce=-1.0)]. *)
Definition clashing_args : @DiceCELoss.Args Lab.torch :=
  let d := @DiceCELoss.defaults Lab.torch in
  @DiceCELoss.mkArgs Lab.torch
    (DiceCELoss.include_background d) (DiceCELoss.to_onehot_y d)
    true true (DiceCELoss.other_act d)
    (DiceCELoss.squared_pred d) (DiceCELoss.jaccard d) (DiceCELoss.reduction d)
    (DiceCELoss.smooth_nr d) (DiceCELoss.smooth_dr d) (DiceCELoss.batch d)
    (DiceCELoss.ce_weight d) (-1.0)%float (-1.0)%float.

Definition both_negative_args : @DiceCELoss.Args Lab.torch :=
  Lab.with_weights (-1.0)%float (-1.0)%float "sum".

Definition nan_args : @DiceCELoss.Args Lab.torch :=
  Lab.with_weights PrimFloat.nan PrimFloat.nan "mean".

(** A 33 by 33 distance matrix. *)
Definition table_33 : Matrix := torch_ones 33 33.

(** A boolean mask with the channels of [slab]. *)
Definition bool_mask : @Tensor Lab.torch :=
  @mkTensor Lab.torch [2; 3; 4] bool_ (repeat 0%Z 24).

End Faulty.

(** * Properties *)

(** ** Running the monad *)

Section MonadLemmas.
Context {T : Torch} {X : Externals}.

Lemma bind_lift_inr (A B : Type) (a : A) (f : A -> M B) :
  bind (lift (inr a)) f = f a.
Proof. unfold bind, lift; simpl. destruct (f a); reflexivity. Qed.

Lemma bind_lift_inl (A B : Type) (e : Exception) (f : A -> M B) :
  bind (lift (inl e)) f = raise e.
Proof. reflexivity. Qed.

Lemma bind_ret (A B : Type) (a : A) (f : A -> M B) :
  bind (ret a) f = f a.
Proof. apply bind_lift_inr. Qed.

(** A step with a trace: the trace stays in front of what follows. *)
Lemma bind_step (A B : Type) (tr : list Event) (a : A) (f : A -> M B) :
  bind (tr, inr a) f = (tr ++ fst (f a), snd (f a)).
Proof. reflexivity. Qed.

Lemma bind_fail (A B : Type) (tr : list Event) (e : Exception) (f : A -> M B) :
  bind (tr, inl e) f = (tr, inl e).
Proof. reflexivity. Qed.

End MonadLemmas.

(** ** The distance matrices *)

Section BackgroundLemmas.
Context {T : Torch}.

Lemma background_matrix_corner m base :
  background_matrix m base -> entry_eq m 0 0 0%float.
Proof.
  intros (_ & _ & Hcell). exists 0%float. split.
  - rewrite (Hcell 0 0) by lia. reflexivity.
  - reflexivity.
Qed.

Lemma background_matrix_border m base k :
  background_matrix m base -> 0 < k < 33 ->
  entry_eq m 0 k 1%float /\ entry_eq m k 0 1%float.
Proof.
  intros (_ & _ & Hcell) Hk. split; exists 1%float; split; try reflexivity.
  - rewrite (Hcell 0 k) by lia. unfold with_background.
    destruct k as [|k]; [lia | reflexivity].
  - rewrite (Hcell k 0) by lia. unfold with_background.
    destruct k as [|k]; [lia | reflexivity].
Qed.

Lemma background_matrix_inner m base i j :
  background_matrix m base -> 0 < i < 33 -> 0 < j < 33 ->
  getitem2 m i j = inr (base (i - 1) (j - 1)).
Proof.
  intros (_ & _ & Hcell) Hi Hj. rewrite (Hcell i j) by lia.
  unfold with_background.
  destruct i as [|i]; [lia|]. destruct j as [|j]; [lia|]. reflexivity.
Qed.

Lemma background_matrix_border_table m base :
  background_matrix m base -> zero_corner_unit_border m /\ over_table m base.
Proof.
  intro Hm. split.
  - split; [apply Hm|]. split; [apply Hm|].
    split; [exact (background_matrix_corner Hm)|].
    intros k Hk. exact (background_matrix_border Hm Hk).
  - intros i j Hi Hj. exact (background_matrix_inner Hm Hi Hj).
Qed.

(** On a device that can be used, [get_equall_dist_matrix] returns the
    background-inclusive matrix over the table of ones. *)
Lemma get_equall_dist_matrix_run (device : Device) :
  device_available device = true ->
  exists m, get_equall_dist_matrix device = inr m /\
            m_device m = device /\
            background_matrix m (fun _ _ => 1%float).
Proof.
  intro Hdev. unfold get_equall_dist_matrix, torch_ones_on. rewrite Hdev.
  eexists. split; [reflexivity|]. split; [reflexivity|].
  split; [reflexivity|]. split; [reflexivity|].
  intros i j Hi Hj. unfold getitem2; simpl.
  apply Nat.ltb_lt in Hi, Hj. rewrite Hi, Hj. simpl.
  unfold with_background.
  destruct i as [|i], j as [|j]; reflexivity.
Qed.

(** It returns on no other device. *)
Lemma get_equall_dist_matrix_returns (device : Device) (m : Matrix) :
  get_equall_dist_matrix device = inr m -> device_available device = true.
Proof.
  unfold get_equall_dist_matrix, torch_ones_on.
  destruct (device_available device); [reflexivity|]. intro H. discriminate H.
Qed.

End BackgroundLemmas.

Section DistanceMatrixLemmas.
Context {T : Torch} {X : Externals}.

(** The trace of [get_tooth_dist_matrix]: [np.load] is called on the
    table of the variant first, and the diagnostic line follows when the
    file was read and the table moved to the device. *)
Lemma get_tooth_dist_matrix_trace (device : Device) (v : PyObj) :
  fst (get_tooth_dist_matrix device (Some v)) =
  LoadCalled (table_of v) ::
    match np_load (table_of v) with
    | inr _ => if device_available device then [Printed (line_of v)] else []
    | inl _ => []
    end.
Proof.
  unfold get_tooth_dist_matrix, table_of, line_of, load, print, to_device.
  destruct (truthy v); simpl;
    match goal with |- context [np_load ?p] => destruct (np_load p) as [e|a] end;
    simpl; try reflexivity;
    (destruct (device_available device); simpl; [|reflexivity]);
    repeat match goal with
    | |- context [torch_cat ?a ?b ?d] => destruct (torch_cat a b d); simpl; try reflexivity
    | |- context [setitem2 ?a ?b ?c ?d] => destruct (setitem2 a b c d); simpl; try reflexivity
    end.
Qed.

(** A 32 by 32 table on disk and a device that can be used: the function
    returns the background-inclusive matrix over the table, on that
    device. *)
Lemma get_tooth_dist_matrix_run (device : Device) (v : PyObj) (base : NdArray) :
  np_load (table_of v) = inr base ->
  device_available device = true ->
  a_rows base = 32 -> a_cols base = 32 ->
  exists m,
    get_tooth_dist_matrix device (Some v)
      = ([LoadCalled (table_of v); Printed (line_of v)], inr m) /\
    m_device m = device /\
    background_matrix m (a_cell base).
Proof.
  intros Hload Hdev Hrows Hcols.
  unfold get_tooth_dist_matrix, table_of, line_of, load, print, to_device in *.
  rewrite Hdev.
  destruct (truthy v); unfold bind at 1 2; simpl; rewrite Hload; simpl;
    unfold torch_cat; simpl; rewrite String.eqb_refl; simpl;
    rewrite Hcols, Hrows; simpl; rewrite String.eqb_refl; simpl;
    (eexists; split; [reflexivity|]; split; [reflexivity|];
     split; [reflexivity|]; split; [reflexivity|];
     intros i j Hi Hj; unfold getitem2; simpl;
     apply Nat.ltb_lt in Hi, Hj; rewrite Hi, Hj; simpl;
     unfold with_background;
     destruct i as [|i], j as [|j]; simpl; rewrite ?Nat.sub_0_r; reflexivity).
Qed.

(** A matrix is returned only over a 32 by 32 table and on a device that
    can be used: the move to the device fails otherwise, or one of the two
    concatenations. *)
Lemma get_tooth_dist_matrix_returns (device : Device) (v : PyObj)
    (tr : list Event) (m : Matrix) :
  get_tooth_dist_matrix device (Some v) = (tr, inr m) ->
  exists base, np_load (table_of v) = inr base /\
               device_available device = true /\
               a_rows base = 32 /\ a_cols base = 32.
Proof.
  unfold get_tooth_dist_matrix, table_of, load, print, to_device.
  destruct (device_available device);
  destruct (truthy v);
    match goal with |- context [np_load ?p] => destruct (np_load p) as [e|a] end;
    try (intro H; discriminate H);
    cbv beta iota zeta delta -[Nat.eqb String.eqb a_cols a_rows a_cell error_text];
    rewrite String.eqb_refl;
    cbv beta iota zeta delta -[Nat.eqb String.eqb a_cols a_rows a_cell error_text];
    (destruct (Nat.eqb_spec 32 (a_cols a)) as [Hcols | Hcols];
     [| intro H; discriminate H]);
    cbv beta iota zeta delta -[Nat.eqb String.eqb a_cols a_rows a_cell error_text];
    rewrite String.eqb_refl;
    cbv beta iota zeta delta -[Nat.eqb String.eqb a_cols a_rows a_cell error_text];
    (destruct (Nat.eqb_spec 33 (S (a_rows a))) as [Hrows | Hrows];
     [| intro H; discriminate H]);
    intros _; exists a; repeat split; lia.
Qed.

End DistanceMatrixLemmas.

Lemma table_of_equal (v : PyObj) :
  table_of v = wasserstein_matrix_equal_npy <-> truthy v = false.
Proof.
  unfold table_of. destruct (truthy v); split; intro H;
    try reflexivity; discriminate H.
Qed.

Lemma table_of_quarter (v : PyObj) :
  table_of v = wasserstein_matrix_npy <-> truthy v = true.
Proof.
  unfold table_of. destruct (truthy v); split; intro H;
    try reflexivity; discriminate H.
Qed.

Lemma truthy_nonempty_string (s : string) : s <> "" -> truthy (PyStr s) = true.
Proof.
  intro Hs. simpl. destruct (String.eqb_spec s ""); [contradiction | reflexivity].
Qed.

Section TraceLemmas.
Context {T : Torch} {X : Externals}.

(** [np.load] is called by [get_tooth_dist_matrix] on a path exactly when
    it is the table of the variant. *)
Lemma get_tooth_dist_matrix_loads (device : Device) (v : PyObj) (path : string) :
  In (LoadCalled path) (fst (get_tooth_dist_matrix device (Some v))) <-> table_of v = path.
Proof.
  rewrite get_tooth_dist_matrix_trace. split.
  - intros [H | H]; [congruence|].
    destruct (np_load (table_of v)); simpl in H.
    + contradiction.
    + destruct (device_available device); simpl in H; [|contradiction].
      destruct H as [H | []]. discriminate H.
  - intros <-. left. reflexivity.
Qed.

End TraceLemmas.

(** C1 (as amended).  Every matrix the builders return has zero
    self-distance for the background class, [matrix[0][0] == 0].  For a
    tooth class [i] in 1..32 the self-distance is not zero in general:
    [get_equall_dist_matrix] gives [matrix[i][i] == 1], and
    [get_tooth_dist_matrix] (either variant) gives the diagonal entry
    [i-1] of the table it loaded, so that [matrix[i][i] == 0] holds
    exactly when the table has a zero there.  The builders return on a
    device that can be used, [get_tooth_dist_matrix] when the table on
    disk is 32 by 32. *)
Theorem built_matrix_self_distance {T : Torch} {X : Externals} :
  (forall (device : Device) m,
     get_equall_dist_matrix device = inr m ->
     entry_eq m 0 0 0%float /\
     forall i, 0 < i < 33 -> entry_eq m i i 1%float)
  /\
  (forall (device : Device) (v : PyObj) tr m,
     get_tooth_dist_matrix device (Some v) = (tr, inr m) ->
     entry_eq m 0 0 0%float /\
     exists base, np_load (table_of v) = inr base /\
       forall i, 0 < i < 33 ->
         getitem2 m i i = inr (a_cell base (i - 1) (i - 1)) /\
         (entry_eq m i i 0%float <->
          PrimFloat.eqb (a_cell base (i - 1) (i - 1)) 0%float = true))
  /\
  (forall device : Device,
     device_available device = true ->
     exists m, get_equall_dist_matrix device = inr m)
  /\
  (forall (device : Device) (v : PyObj) (base : NdArray),
     np_load (table_of v) = inr base ->
     device_available device = true ->
     a_rows base = 32 -> a_cols base = 32 ->
     exists tr m, get_tooth_dist_matrix device (Some v) = (tr, inr m)).
Proof.
  split; [|split; [|split]].
  - intros device m Hret.
    pose proof (get_equall_dist_matrix_returns _ Hret) as Hdev.
    destruct (get_equall_dist_matrix_run device Hdev) as (m' & Hrun & _ & Hm).
    rewrite Hrun in Hret. inversion Hret. subst m'. split.
    + exact (background_matrix_corner Hm).
    + intros i Hi. exists 1%float. split; [|reflexivity].
      apply (background_matrix_inner Hm Hi Hi).
  - intros device v tr m Hret.
    destruct (get_tooth_dist_matrix_returns _ _ Hret)
      as (base & Hload & Hdev & Hrows & Hcols).
    destruct (get_tooth_dist_matrix_run device v Hload Hdev Hrows Hcols)
      as (m' & Hrun & _ & Hm).
    rewrite Hrun in Hret. inversion Hret. subst m'. split.
    + exact (background_matrix_corner Hm).
    + exists base. split; [exact Hload|]. intros i Hi.
      pose proof (background_matrix_inner Hm Hi Hi) as Hdiag.
      split; [exact Hdiag|]. unfold entry_eq. rewrite Hdiag. split.
      * intros (x & Hx & Heq). inversion Hx. subst x. exact Heq.
      * intro Heq. eexists. split; [reflexivity | exact Heq].
  - intros device Hdev.
    destruct (get_equall_dist_matrix_run device Hdev) as (m & Hrun & _).
    exists m. exact Hrun.
  - intros device v base Hload Hdev Hrows Hcols.
    destruct (get_tooth_dist_matrix_run device v Hload Hdev Hrows Hcols)
      as (m & Hrun & _).
    eexists. exists m. exact Hrun.
Qed.

(** C1, run: the quarter-penalty table of the concrete environment, whose
    diagonal is zero, and the matrix of [get_equall_dist_matrix]. *)
Lemma built_matrix_self_distance_witness :
  (exists tr m,
    @get_tooth_dist_matrix Lab.torch (Lab.externals 2 0) "cuda:0" (Some (PyStr "True"))
      = (tr, inr m) /\
    entry_eq (T:=Lab.torch) m 0 0 0%float /\
    forall i, 0 < i < 33 ->
      getitem2 (T:=Lab.torch) m i i = inr (a_cell Lab.quarter_table (i - 1) (i - 1)) /\
      (entry_eq (T:=Lab.torch) m i i 0%float <->
       PrimFloat.eqb (a_cell Lab.quarter_table (i - 1) (i - 1)) 0%float = true))
  /\
  (exists m,
    @get_equall_dist_matrix Lab.torch "cuda:0" = inr m /\
    entry_eq (T:=Lab.torch) m 0 0 0%float /\
    forall i, 0 < i < 33 -> entry_eq (T:=Lab.torch) m i i 1%float).
Proof.
  pose proof (@built_matrix_self_distance Lab.torch (Lab.externals 2 0))
    as (Hequal & Hret & Hrun_equal & Hrun).
  split.
  - destruct (Hrun "cuda:0" (PyStr "True") Lab.quarter_table
                eq_refl eq_refl eq_refl eq_refl) as (tr & m & Hm).
    exists tr, m. split; [exact Hm|].
    destruct (Hret _ _ _ _ Hm) as (Hcorner & base & Hload & Hdiag).
    inversion Hload. subst base. split; [exact Hcorner | exact Hdiag].
  - destruct (Hrun_equal "cuda:0" eq_refl) as (m & Hm).
    exists m. split; [exact Hm|]. exact (Hequal _ _ Hm).
Defined.

(** C1 as stated fails: in the matrix of [get_equall_dist_matrix] the
    self-distance of class 1 is 1, not 0. *)
Lemma equal_matrix_self_distance_not_zero :
  exists m, @get_equall_dist_matrix Lab.torch "cpu" = inr m /\
            getitem2 (T:=Lab.torch) m 1 1 = inr 1%float /\
            ~ entry_eq (T:=Lab.torch) m 1 1 0%float.
Proof.
  eexists. split; [reflexivity|]. split; [reflexivity|].
  intros (x & Hx & Heq). vm_compute in Hx. inversion Hx. subst x.
  vm_compute in Heq. discriminate Heq.
Qed.

(** C4.  For every variant the built matrix is 33 by 33, is the loaded
    base table with one row and one column of ones before it (for
    [get_equall_dist_matrix], the table of ones), and has
    [matrix[0][0] == 0] and [matrix[0][k] == matrix[k][0] == 1] for all
    [k > 0].  On a device that can be used, [get_equall_dist_matrix]
    builds it, and [get_tooth_dist_matrix] builds it whenever the table on
    disk is 32 by 32. *)
Theorem built_matrix_background_border {T : Torch} {X : Externals} :
  (forall (device : Device) (v : PyObj) tr m,
     get_tooth_dist_matrix device (Some v) = (tr, inr m) ->
     exists base, np_load (table_of v) = inr base /\
       zero_corner_unit_border m /\ over_table m (a_cell base))
  /\
  (forall (device : Device) m,
     get_equall_dist_matrix device = inr m ->
     zero_corner_unit_border m /\ over_table m (fun _ _ => 1%float))
  /\
  (forall (device : Device) (v : PyObj) (base : NdArray),
     np_load (table_of v) = inr base ->
     device_available device = true ->
     a_rows base = 32 -> a_cols base = 32 ->
     exists tr m, get_tooth_dist_matrix device (Some v) = (tr, inr m))
  /\
  (forall device : Device,
     device_available device = true ->
     exists m, get_equall_dist_matrix device = inr m).
Proof.
  split; [|split; [|split]].
  - intros device v tr m Hret.
    destruct (get_tooth_dist_matrix_returns _ _ Hret)
      as (base & Hload & Hdev & Hrows & Hcols).
    destruct (get_tooth_dist_matrix_run device v Hload Hdev Hrows Hcols)
      as (m' & Hrun & _ & Hm).
    rewrite Hrun in Hret. inversion Hret. subst m'.
    exists base. split; [exact Hload|]. exact (background_matrix_border_table Hm).
  - intros device m Hret.
    pose proof (get_equall_dist_matrix_returns _ Hret) as Hdev.
    destruct (get_equall_dist_matrix_run device Hdev) as (m' & Hrun & _ & Hm).
    rewrite Hrun in Hret. inversion Hret. subst m'.
    exact (background_matrix_border_table Hm).
  - intros device v base Hload Hdev Hrows Hcols.
    destruct (get_tooth_dist_matrix_run device v Hload Hdev Hrows Hcols)
      as (m & Hrun & _).
    eexists. exists m. exact Hrun.
  - intros device Hdev.
    destruct (get_equall_dist_matrix_run device Hdev) as (m & Hrun & _).
    exists m. exact Hrun.
Qed.

(** C4, run: the equal variant of [get_tooth_dist_matrix] and
    [get_equall_dist_matrix] in the concrete environment return, and what
    they return has the border. *)
Lemma built_matrix_background_border_witness :
  (exists tr m,
    @get_tooth_dist_matrix Lab.torch (Lab.externals 2 0) "cpu" (Some (PyBool false))
      = (tr, inr m) /\
    zero_corner_unit_border (T:=Lab.torch) m /\ over_table (T:=Lab.torch) m (a_cell Lab.equal_table))
  /\
  (exists m,
    @get_equall_dist_matrix Lab.torch "cpu" = inr m /\
    zero_corner_unit_border (T:=Lab.torch) m /\ over_table (T:=Lab.torch) m (fun _ _ => 1%float)).
Proof.
  pose proof (@built_matrix_background_border Lab.torch (Lab.externals 2 0))
    as (Hret & Hret_equal & Hrun & Hrun_equal).
  split.
  - destruct (Hrun "cpu" (PyBool false) Lab.equal_table eq_refl eq_refl eq_refl eq_refl)
      as (tr & m & Hm).
    exists tr, m. split; [exact Hm|].
    destruct (Hret _ _ _ _ Hm) as (base & Hload & Hborder).
    inversion Hload. subst base. exact Hborder.
  - destruct (Hrun_equal "cpu" eq_refl) as (m & Hm).
    exists m. split; [exact Hm|]. exact (Hret_equal _ _ Hm).
Defined.

(** C8.  In the matrix that [get_equall_dist_matrix] returns every entry
    with both indices greater than 0 equals 1, and the only entry that is
    not 1 is the [0][0] cell, which is 0.  The function returns on every
    device that can be used. *)
Theorem equal_matrix_entries {T : Torch} :
  (forall (device : Device) m,
     get_equall_dist_matrix device = inr m ->
     (forall i j, 0 < i < 33 -> 0 < j < 33 -> entry_eq m i j 1%float) /\
     (forall i j, i < 33 -> j < 33 -> ~ entry_eq m i j 1%float -> i = 0 /\ j = 0) /\
     entry_eq m 0 0 0%float /\ ~ entry_eq m 0 0 1%float)
  /\
  (forall device : Device,
     device_available device = true ->
     exists m, get_equall_dist_matrix device = inr m).
Proof.
  split.
  - intros device m Hret.
    pose proof (get_equall_dist_matrix_returns _ Hret) as Hdev.
    destruct (get_equall_dist_matrix_run device Hdev) as (m' & Hrun & _ & Hm).
    rewrite Hrun in Hret. inversion Hret. subst m'.
    assert (Hread : forall i j, i < 33 -> j < 33 ->
              getitem2 m i j = inr (if (i =? 0) && (j =? 0) then 0%float else 1%float)).
    { intros i j Hi Hj. destruct Hm as (_ & _ & Hcell). rewrite (Hcell i j Hi Hj).
      unfold with_background. destruct i as [|i], j as [|j]; reflexivity. }
    split; [|split; [|split]].
    + intros i j Hi Hj. exists 1%float. split; [|reflexivity].
      rewrite Hread by lia. destruct i as [|i]; [lia|]. reflexivity.
    + intros i j Hi Hj Hne.
      destruct i as [|i], j as [|j]; try (split; reflexivity);
        exfalso; apply Hne; exists 1%float; (split; [|reflexivity]);
        rewrite Hread by lia; reflexivity.
    + exact (background_matrix_corner Hm).
    + intros (x & Hx & Heq). rewrite Hread in Hx by lia. simpl in Hx.
      inversion Hx. subst x. vm_compute in Heq. discriminate Heq.
  - intros device Hdev.
    destruct (get_equall_dist_matrix_run device Hdev) as (m & Hrun & _).
    exists m. exact Hrun.
Qed.

(** C8, run: the matrix built on the second accelerator of the concrete
    environment. *)
Lemma equal_matrix_entries_witness :
  exists m,
    @get_equall_dist_matrix Lab.torch "cuda:1" = inr m /\
    (forall i j, 0 < i < 33 -> 0 < j < 33 -> entry_eq (T:=Lab.torch) m i j 1%float) /\
    (forall i j, i < 33 -> j < 33 -> ~ entry_eq (T:=Lab.torch) m i j 1%float -> i = 0 /\ j = 0) /\
    entry_eq (T:=Lab.torch) m 0 0 0%float /\ ~ entry_eq (T:=Lab.torch) m 0 0 1%float.
Proof.
  pose proof (@equal_matrix_entries Lab.torch) as (Hret & Hrun).
  destruct (Hrun "cuda:1" eq_refl) as (m & Hm).
  exists m. split; [exact Hm|]. exact (Hret _ _ Hm).
Defined.

(** C10.  [get_tooth_dist_matrix] chooses the variant by the truthiness
    of [quarter_penalty], whose default is the string "True": for every
    non-empty string, the string "False" among them, the quarter-penalty
    table is the one opened, and the equal table is opened exactly when
    the argument is falsy, as the boolean [False] is. *)
Theorem quarter_penalty_truthiness {T : Torch} {X : Externals} :
  (forall device : Device,
     get_tooth_dist_matrix device None
     = get_tooth_dist_matrix device (Some (PyStr "True")))
  /\
  (forall (device : Device) (s : string), s <> "" ->
     hd_error (fst (get_tooth_dist_matrix device (Some (PyStr s))))
       = Some (LoadCalled wasserstein_matrix_npy) /\
     ~ In (LoadCalled wasserstein_matrix_equal_npy)
          (fst (get_tooth_dist_matrix device (Some (PyStr s)))))
  /\
  (forall device : Device,
     In (LoadCalled wasserstein_matrix_npy)
        (fst (get_tooth_dist_matrix device (Some (PyStr "False")))))
  /\
  (forall (device : Device) (v : PyObj),
     In (LoadCalled wasserstein_matrix_equal_npy)
        (fst (get_tooth_dist_matrix device (Some v)))
     <-> truthy v = false)
  /\
  (forall device : Device,
     In (LoadCalled wasserstein_matrix_equal_npy)
        (fst (get_tooth_dist_matrix device (Some (PyBool false))))).
Proof.
  split; [reflexivity|]. split; [|split; [|split]].
  - intros device s Hs.
    pose proof (truthy_nonempty_string Hs) as Ht. split.
    + rewrite get_tooth_dist_matrix_trace. simpl hd_error.
      apply table_of_quarter in Ht. rewrite Ht. reflexivity.
    + rewrite get_tooth_dist_matrix_loads, table_of_equal. congruence.
  - intro device. apply get_tooth_dist_matrix_loads. reflexivity.
  - intros device v. rewrite get_tooth_dist_matrix_loads. apply table_of_equal.
  - intro device. apply get_tooth_dist_matrix_loads. reflexivity.
Qed.

(** C10, run: the string "False" in the concrete environment. *)
Lemma quarter_penalty_truthiness_witness :
  hd_error (fst (@get_tooth_dist_matrix Lab.torch (Lab.externals 2 0) "cpu"
                   (Some (PyStr "False"))))
    = Some (LoadCalled wasserstein_matrix_npy) /\
  ~ In (LoadCalled wasserstein_matrix_equal_npy)
       (fst (@get_tooth_dist_matrix Lab.torch (Lab.externals 2 0) "cpu"
               (Some (PyStr "False")))).
Proof.
  apply (proj1 (proj2 (@quarter_penalty_truthiness Lab.torch (Lab.externals 2 0)))
           "cpu" "False").
  discriminate.
Defined.

(** ** Label reconciliation *)

Section ReconciliationLemmas.
Context {T : Torch} {X : Externals}.

Lemma Size_getitem_channels (t : Tensor) (n : nat) :
  channels t = Some n -> Size_getitem (shape t) 1 = inr n.
Proof. unfold channels, Size_getitem. intros ->. reflexivity. Qed.

(** Squeezing the channel dimension of a one-channel tensor removes the
    dimension and keeps dtype and storage. *)
Lemma torch_squeeze_one_channel (t : Tensor) :
  channels t = Some 1 ->
  torch_squeeze t 1 = inr {| shape := drop_dim (shape t) 1; dtype := dtype t; data := data t |}.
Proof. unfold channels, torch_squeeze. intros ->. reflexivity. Qed.

Lemma Tensor_long_shape_dtype (t : Tensor) :
  shape (Tensor_long t) = shape t /\ dtype (Tensor_long t) = int64.
Proof.
  unfold Tensor_long, Tensor_to.
  destruct (dtype t) eqn:E; simpl; rewrite ?E; split; reflexivity.
Qed.

(** What rule 1 makes of a one-channel target. *)
Lemma rule_squeeze_rewrites (input target : Tensor) :
  channels target = Some 1 ->
  exists r, rewrites rule_squeeze input target = inr r /\
            shape r = drop_dim (shape target) 1 /\ dtype r = int64.
Proof.
  intro Hc. simpl. rewrite (torch_squeeze_one_channel _ Hc).
  eexists. split; [reflexivity|]. apply Tensor_long_shape_dtype.
Qed.

Lemma DiceCELoss_ce_first_match (self : DiceCELoss.t) (input target : Tensor)
    (n_pred_ch n_target_ch : nat) :
  channels input = Some n_pred_ch -> channels target = Some n_target_ch ->
  DiceCELoss.ce self input target
  = delegate (DiceCELoss.cross_entropy self) input
      (first_match (DiceCE_rules (DiceCELoss.old_pt_ver self)) input target).
Proof.
  intros Hp Ht. unfold DiceCELoss.ce.
  rewrite (Size_getitem_channels _ Hp), bind_lift_inr.
  rewrite (Size_getitem_channels _ Ht), bind_lift_inr.
  unfold DiceCE_rules, first_match, rule_squeeze, rule_argmax, rule_cast; simpl.
  rewrite Hp, Ht.
  destruct (negb (n_pred_ch =? n_target_ch) && (n_target_ch =? 1)).
  - destruct (torch_squeeze target 1) as [e|squeezed].
    + reflexivity.
    + rewrite bind_lift_inr, !bind_ret. reflexivity.
  - destruct (DiceCELoss.old_pt_ver self).
    + destruct (torch_argmax target 1) as [e|r].
      * reflexivity.
      * rewrite bind_lift_inr. reflexivity.
    + destruct (negb (is_floating_point target)); rewrite bind_ret; reflexivity.
Qed.

Lemma GWDLCELoss_ce_first_match (self : GWDLCELoss.t) (input target : Tensor)
    (n_pred_ch n_target_ch : nat) :
  channels input = Some n_pred_ch -> channels target = Some n_target_ch ->
  GWDLCELoss.ce self input target
  = delegate (GWDLCELoss.cross_entropy self) input (first_match GWDLCE_rules input target).
Proof.
  intros Hp Ht. unfold GWDLCELoss.ce.
  rewrite (Size_getitem_channels _ Hp), bind_lift_inr.
  rewrite (Size_getitem_channels _ Ht), bind_lift_inr.
  unfold GWDLCE_rules, first_match, rule_squeeze, rule_cast; simpl.
  rewrite Hp, Ht.
  destruct (negb (n_pred_ch =? n_target_ch) && (n_target_ch =? 1)).
  - destruct (torch_squeeze target 1) as [e|squeezed].
    + reflexivity.
    + rewrite bind_lift_inr, !bind_ret. reflexivity.
  - destruct (negb (is_floating_point target)); rewrite bind_ret; reflexivity.
Qed.

(** A [ce] that returns made exactly one external call, to the cross
    entropy, on the prediction as it came, and returns what the call
    returned. *)
Lemma delegate_returns (c : CrossEntropyLoss) (input : Tensor) (reconciled : Exc Tensor)
    (tr : list Event) (ce_loss : Tensor) :
  delegate c input reconciled = (tr, inr ce_loss) ->
  exists target, reconciled = inr target /\
                 tr = [CrossEntropyCalled c input target] /\
                 CrossEntropyLoss_call c input target = inr ce_loss.
Proof.
  destruct reconciled as [e|target]; simpl; intro H.
  - discriminate H.
  - inversion H. exists target. repeat split; reflexivity.
Qed.

(** A [ce] that returned made exactly one external call, to the cross
    entropy on the input as it came, and returned what the call returned;
    in particular both tensors had a channel dimension. *)
Lemma DiceCELoss_ce_returns (self : DiceCELoss.t) (input target : Tensor)
    (tr : list Event) (ce_loss : Tensor) :
  DiceCELoss.ce self input target = (tr, inr ce_loss) ->
  exists reconciled,
    tr = [CrossEntropyCalled (DiceCELoss.cross_entropy self) input reconciled] /\
    CrossEntropyLoss_call (DiceCELoss.cross_entropy self) input reconciled = inr ce_loss.
Proof.
  intro Hce.
  destruct (channels input) as [n_pred_ch|] eqn:Hp;
    [destruct (channels target) as [n_target_ch|] eqn:Ht|].
  - rewrite (DiceCELoss_ce_first_match self _ _ Hp Ht) in Hce.
    destruct (delegate_returns _ _ _ Hce) as (reconciled & _ & Htr & Hcall).
    exists reconciled. split; assumption.
  - unfold DiceCELoss.ce in Hce. rewrite (Size_getitem_channels _ Hp), bind_lift_inr in Hce.
    unfold Size_getitem in Hce. unfold channels in Ht. rewrite Ht in Hce.
    discriminate Hce.
  - unfold DiceCELoss.ce, Size_getitem in Hce. unfold channels in Hp. rewrite Hp in Hce.
    discriminate Hce.
Qed.

Lemma GWDLCELoss_ce_returns (self : GWDLCELoss.t) (input target : Tensor)
    (tr : list Event) (ce_loss : Tensor) :
  GWDLCELoss.ce self input target = (tr, inr ce_loss) ->
  exists reconciled,
    tr = [CrossEntropyCalled (GWDLCELoss.cross_entropy self) input reconciled] /\
    CrossEntropyLoss_call (GWDLCELoss.cross_entropy self) input reconciled = inr ce_loss.
Proof.
  intro Hce.
  destruct (channels input) as [n_pred_ch|] eqn:Hp;
    [destruct (channels target) as [n_target_ch|] eqn:Ht|].
  - rewrite (GWDLCELoss_ce_first_match self _ _ Hp Ht) in Hce.
    destruct (delegate_returns _ _ _ Hce) as (reconciled & _ & Htr & Hcall).
    exists reconciled. split; assumption.
  - unfold GWDLCELoss.ce in Hce. rewrite (Size_getitem_channels _ Hp), bind_lift_inr in Hce.
    unfold Size_getitem in Hce. unfold channels in Ht. rewrite Ht in Hce.
    discriminate Hce.
  - unfold GWDLCELoss.ce, Size_getitem in Hce. unfold channels in Hp. rewrite Hp in Hce.
    discriminate Hce.
Qed.

End ReconciliationLemmas.

(** C2.  In [DiceCELoss.ce] the reconciliation rules are tried in order
    and the first that applies wins: (1) the channel counts differ and the
    target has one channel: the channel dimension is squeezed and the
    target cast to the class-index dtype; (2) else, under an older
    PyTorch: arg-max over the channel dimension; (3) else, the target is
    not float-valued: it is cast to the dtype of the input.  The
    reconciled target goes to the external cross entropy.  For an input of
    shape (2,3,4,4,4) and a target of shape (2,1,4,4,4) the target
    delegated has shape (2,4,4,4) and the integer dtype. *)
Theorem DiceCELoss_ce_reconciliation {T : Torch} {X : Externals}
    (self : DiceCELoss.t) (input target : Tensor) (n_pred_ch n_target_ch : nat) :
  channels input = Some n_pred_ch -> channels target = Some n_target_ch ->
  DiceCELoss.ce self input target
  = match first_match (DiceCE_rules (DiceCELoss.old_pt_ver self)) input target with
    | inr reconciled => call_cross_entropy (DiceCELoss.cross_entropy self) input reconciled
    | inl e => raise e
    end
  /\
  (n_pred_ch <> n_target_ch -> n_target_ch = 1 ->
   exists reconciled,
     first_match (DiceCE_rules (DiceCELoss.old_pt_ver self)) input target = inr reconciled /\
     shape reconciled = drop_dim (shape target) 1 /\ dtype reconciled = int64 /\
     fst (DiceCELoss.ce self input target)
     = [CrossEntropyCalled (DiceCELoss.cross_entropy self) input reconciled])
  /\
  (shape input = [2; 3; 4; 4; 4] -> shape target = [2; 1; 4; 4; 4] ->
   exists reconciled,
     fst (DiceCELoss.ce self input target)
     = [CrossEntropyCalled (DiceCELoss.cross_entropy self) input reconciled] /\
     shape reconciled = [2; 4; 4; 4] /\ dtype reconciled = int64).
Proof.
  intros Hp Ht.
  pose proof (DiceCELoss_ce_first_match self _ _ Hp Ht) as Hce.
  assert (Hrule1 : n_pred_ch <> n_target_ch -> n_target_ch = 1 ->
    exists reconciled,
      first_match (DiceCE_rules (DiceCELoss.old_pt_ver self)) input target = inr reconciled /\
      shape reconciled = drop_dim (shape target) 1 /\ dtype reconciled = int64 /\
      fst (DiceCELoss.ce self input target)
      = [CrossEntropyCalled (DiceCELoss.cross_entropy self) input reconciled]).
  { intros Hne H1. subst n_target_ch.
    destruct (rule_squeeze_rewrites input _ Ht) as (r & Hr & Hshape & Hdtype).
    exists r. rewrite Hce.
    assert (Hfirst : first_match (DiceCE_rules (DiceCELoss.old_pt_ver self)) input target
                     = inr r).
    { unfold DiceCE_rules, first_match.
      replace (applies rule_squeeze input target) with true; [exact Hr|].
      simpl. rewrite Hp, Ht. apply Nat.eqb_neq in Hne. rewrite Hne. reflexivity. }
    rewrite Hfirst. repeat split; assumption. }
  split; [exact Hce|]. split; [exact Hrule1|].
  intros Hin Htg.
  unfold channels in Hp, Ht. rewrite Hin in Hp. rewrite Htg in Ht.
  simpl in Hp, Ht. inversion Hp. inversion Ht. subst n_pred_ch n_target_ch.
  destruct Hrule1 as (r & _ & Hshape & Hdtype & Htrace); [discriminate | reflexivity |].
  exists r. rewrite Htg in Hshape. split; [exact Htrace|]. split; assumption.
Qed.

(** C2, run: the label batch of the concrete environment against its
    prediction. *)
Lemma DiceCELoss_ce_reconciliation_witness :
  exists reconciled,
    fst (DiceCELoss.ce (Lab.dice_ce 2 0) Lab.prediction Lab.labels)
    = [CrossEntropyCalled (DiceCELoss.cross_entropy (Lab.dice_ce 2 0))
         Lab.prediction reconciled] /\
    shape reconciled = [2; 4; 4; 4] /\ dtype reconciled = int64.
Proof.
  apply (proj2 (proj2 (@DiceCELoss_ce_reconciliation Lab.torch (Lab.externals 2 0)
                         (Lab.dice_ce 2 0) Lab.prediction Lab.labels 3 1
                         eq_refl eq_refl)));
    reflexivity.
Defined.

(** C3.  When the ranks of input and target differ, [DiceCELoss.forward]
    raises a [ValueError] whose message names both shapes, and the trace
    is empty: neither the Dice loss nor the cross entropy was called. *)
Theorem DiceCELoss_forward_rank_mismatch {T : Torch} {X : Externals}
    (self : DiceCELoss.t) (input target : Tensor) :
  List.length (shape input) <> List.length (shape target) ->
  DiceCELoss.forward self input target
  = ([], inl (ValueError
       ("the number of dimensions for input and target should be the same, got shape "
        ++ str_Size (shape input) ++ " and " ++ str_Size (shape target) ++ ".")%string)).
Proof.
  intro Hrank. unfold DiceCELoss.forward.
  apply Nat.eqb_neq in Hrank. rewrite Hrank. reflexivity.
Qed.

(** C3, run: a label map that lacks the channel dimension. *)
Lemma DiceCELoss_forward_rank_mismatch_witness :
  DiceCELoss.forward (Lab.dice_ce 2 0) Lab.prediction Lab.flat_labels
  = ([], inl (ValueError
       ("the number of dimensions for input and target should be the same, got shape "
        ++ str_Size [2; 3; 4; 4; 4] ++ " and " ++ str_Size [2; 4; 4; 4] ++ ".")%string)).
Proof.
  apply (@DiceCELoss_forward_rank_mismatch Lab.torch (Lab.externals 2 0)
           (Lab.dice_ce 2 0) Lab.prediction Lab.flat_labels).
  simpl. lia.
Defined.

(** ** Construction *)

Section InitLemmas.
Context {T : Torch} {X : Externals}.

(** Which strings [look_up_option] finds in [DiceCEReduction]. *)
Lemma look_up_option_member (opt_str : string) (member : DiceCEReduction) :
  look_up_option opt_str = inr member <-> opt_str = DiceCEReduction_value member.
Proof.
  unfold look_up_option.
  destruct (String.eqb_spec opt_str (DiceCEReduction_value MEAN)) as [-> | Hm].
  - split.
    + intro H. inversion H. reflexivity.
    + destruct member; intro H; [reflexivity | discriminate H].
  - destruct (String.eqb_spec opt_str (DiceCEReduction_value SUM)) as [-> | Hs].
    + split.
      * intro H. inversion H. reflexivity.
      * destruct member; intro H; [discriminate H | reflexivity].
    + split.
      * intro H. discriminate H.
      * destruct member; intro H; contradiction.
Qed.

(** [__init__] once the reduction is found and the external constructors
    have accepted their arguments: the two checks on the weights, in the
    order of the source. *)
Lemma DiceCELoss_init_checks (a : DiceCELoss.Args) (member : DiceCEReduction)
    (d : DiceLoss) (c : CrossEntropyLoss) :
  look_up_option (DiceCELoss.reduction a) = inr member ->
  DiceLoss_new (DiceCELoss.dice_arguments a (DiceCEReduction_value member)) = inr d ->
  CrossEntropyLoss_new (DiceCELoss.ce_weight a) (DiceCEReduction_value member) = inr c ->
  DiceCELoss.__init__ a
  = if PrimFloat.ltb (DiceCELoss.a_lambda_dice a) 0.0 then
      raise (ValueError "lambda_dice should be no less than 0.0.")
    else if PrimFloat.ltb (DiceCELoss.a_lambda_ce a) 0.0 then
      raise (ValueError "lambda_ce should be no less than 0.0.")
    else
      ret (DiceCELoss.mk d c (DiceCELoss.a_lambda_dice a) (DiceCELoss.a_lambda_ce a)
             (negb (pytorch_after 1 10))).
Proof.
  intros Hred Hdice Hce. unfold DiceCELoss.__init__.
  rewrite Hred, bind_lift_inr. rewrite Hdice, bind_lift_inr.
  rewrite Hce, bind_lift_inr. reflexivity.
Qed.

(** A negative weight: whatever else happens, no object is returned. *)
Lemma DiceCELoss_init_negative (a : DiceCELoss.Args) :
  PrimFloat.ltb (DiceCELoss.a_lambda_dice a) 0.0 = true \/
  PrimFloat.ltb (DiceCELoss.a_lambda_ce a) 0.0 = true ->
  exists e, snd (DiceCELoss.__init__ a) = inl e.
Proof.
  intro Hneg. unfold DiceCELoss.__init__.
  destruct (look_up_option (DiceCELoss.reduction a)) as [e|member].
  { exists e. reflexivity. }
  rewrite bind_lift_inr.
  destruct (DiceLoss_new _) as [e|d].
  { exists e. reflexivity. }
  rewrite bind_lift_inr.
  destruct (CrossEntropyLoss_new _ _) as [e|c].
  { exists e. reflexivity. }
  rewrite bind_lift_inr.
  destruct (PrimFloat.ltb (DiceCELoss.a_lambda_dice a) 0.0).
  { eexists. reflexivity. }
  destruct Hneg as [Hneg | Hneg]; [discriminate Hneg|].
  rewrite Hneg. eexists. reflexivity.
Qed.

End InitLemmas.

(** C5.  [DiceCELoss.__init__] fails when [lambda_dice < 0] or
    [lambda_ce < 0], with the [ValueError] of the weight at fault once the
    reduction is found and the external constructors have accepted their
    arguments; it returns the object when both weights are 0.0; and it
    fails with the error of the lookup, before anything else, when the
    reduction is neither "mean" nor "sum". *)
Theorem DiceCELoss_init_validation {T : Torch} {X : Externals} :
  (forall a : DiceCELoss.Args,
     PrimFloat.ltb (DiceCELoss.a_lambda_dice a) 0.0 = true \/
     PrimFloat.ltb (DiceCELoss.a_lambda_ce a) 0.0 = true ->
     (exists e, snd (DiceCELoss.__init__ a) = inl e) /\
     forall member d c,
       look_up_option (DiceCELoss.reduction a) = inr member ->
       DiceLoss_new (DiceCELoss.dice_arguments a (DiceCEReduction_value member)) = inr d ->
       CrossEntropyLoss_new (DiceCELoss.ce_weight a) (DiceCEReduction_value member) = inr c ->
       DiceCELoss.__init__ a = raise (ValueError "lambda_dice should be no less than 0.0.") \/
       DiceCELoss.__init__ a = raise (ValueError "lambda_ce should be no less than 0.0."))
  /\
  (forall (a : DiceCELoss.Args) member d c,
     DiceCELoss.a_lambda_dice a = 0.0%float -> DiceCELoss.a_lambda_ce a = 0.0%float ->
     look_up_option (DiceCELoss.reduction a) = inr member ->
     DiceLoss_new (DiceCELoss.dice_arguments a (DiceCEReduction_value member)) = inr d ->
     CrossEntropyLoss_new (DiceCELoss.ce_weight a) (DiceCEReduction_value member) = inr c ->
     DiceCELoss.__init__ a
     = ret (DiceCELoss.mk d c 0.0%float 0.0%float (negb (pytorch_after 1 10))))
  /\
  (forall a : DiceCELoss.Args,
     DiceCELoss.reduction a <> "mean" -> DiceCELoss.reduction a <> "sum" ->
     exists msg, DiceCELoss.__init__ a = raise (ValueError msg) /\
                 look_up_option (DiceCELoss.reduction a) = inl (ValueError msg)).
Proof.
  split; [|split].
  - intros a Hneg. split; [exact (DiceCELoss_init_negative a Hneg)|].
    intros member d c Hred Hdice Hce.
    rewrite (DiceCELoss_init_checks a Hred Hdice Hce).
    destruct (PrimFloat.ltb (DiceCELoss.a_lambda_dice a) 0.0).
    + left. reflexivity.
    + destruct Hneg as [Hneg | Hneg]; [discriminate Hneg|].
      rewrite Hneg. right. reflexivity.
  - intros a member d c H0d H0c Hred Hdice Hce.
    rewrite (DiceCELoss_init_checks a Hred Hdice Hce).
    rewrite H0d, H0c. reflexivity.
  - intros a Hmean Hsum. unfold DiceCELoss.__init__.
    destruct (look_up_option (DiceCELoss.reduction a)) as [e|member] eqn:Hlook.
    + unfold look_up_option in Hlook.
      destruct (String.eqb _ _); [discriminate Hlook|].
      destruct (String.eqb _ _); [discriminate Hlook|].
      inversion Hlook. eexists. split; reflexivity.
    + apply look_up_option_member in Hlook.
      destruct member; simpl in Hlook; contradiction.
Qed.

(** C5, run: [DiceCELoss(lambda_dice=-0.1)], then
    [DiceCELoss(lambda_dice=0.0, lambda_ce=0.0)], then
    [DiceCELoss(reduction="none")], in the concrete environment. *)
Lemma DiceCELoss_init_validation_witness :
  @DiceCELoss.__init__ Lab.torch (Lab.externals 2 0) Lab.negative_dice_args
    = raise (ValueError "lambda_dice should be no less than 0.0.")
  /\
  @DiceCELoss.__init__ Lab.torch (Lab.externals 2 0) Lab.zero_weight_args
    = ret (@DiceCELoss.mk Lab.torch (Lab.externals 2 0)
             (DiceCELoss.dice_arguments Lab.zero_weight_args "mean") (None, "mean")
             0.0%float 0.0%float false)
  /\
  exists msg,
    @DiceCELoss.__init__ Lab.torch (Lab.externals 2 0) Lab.no_reduction_args
    = raise (ValueError msg).
Proof.
  pose proof (@DiceCELoss_init_validation Lab.torch (Lab.externals 2 0))
    as (Hneg & Hzero & Hred).
  split; [|split].
  - destruct (proj2 (Hneg Lab.negative_dice_args (or_introl eq_refl))
                MEAN _ _ eq_refl eq_refl eq_refl) as [H | H].
    + exact H.
    + discriminate H.
  - exact (Hzero Lab.zero_weight_args MEAN _ _ eq_refl eq_refl eq_refl eq_refl eq_refl).
  - destruct (Hred Lab.no_reduction_args) as (msg & H & _).
    + discriminate.
    + discriminate.
    + exists msg. exact H.
Defined.

(** ** The two forward passes *)

Section ForwardLemmas.
Context {T : Torch} {X : Externals}.

(** [GWDLCELoss.forward] after a [ce] that returned. *)
Lemma GWDLCELoss_forward_after_ce (self : GWDLCELoss.t) (y_pred y_true : Tensor)
    (tr : list Event) (ce_loss : Tensor) :
  GWDLCELoss.ce self y_pred y_true = (tr, inr ce_loss) ->
  GWDLCELoss.forward self y_pred y_true
  = (tr ++ [WassersteinDiceCalled (GWDLCELoss.generalized_dice self) y_pred y_true],
     match monai_gwdl_call (GWDLCELoss.generalized_dice self) y_pred y_true with
     | inr gwdl_loss => inr (gwdl_loss, ce_loss)
     | inl e => inl e
     end).
Proof.
  intro Hce. unfold GWDLCELoss.forward. rewrite Hce, bind_step.
  unfold GWDLCELoss.gwdl, call_gwdl.
  destruct (monai_gwdl_call _ y_pred y_true) as [e|gwdl_loss].
  - rewrite bind_fail. reflexivity.
  - rewrite bind_step. simpl. reflexivity.
Qed.

(** [DiceCELoss.forward] on tensors of one rank, after a Dice loss and a
    [ce] that returned. *)
Lemma DiceCELoss_forward_after_ce (self : DiceCELoss.t) (input target : Tensor)
    (dice_loss : Tensor) (tr : list Event) (ce_loss : Tensor) :
  List.length (shape input) = List.length (shape target) ->
  DiceLoss_call (DiceCELoss.dice self) input target = inr dice_loss ->
  DiceCELoss.ce self input target = (tr, inr ce_loss) ->
  DiceCELoss.forward self input target
  = (DiceCalled (DiceCELoss.dice self) input target :: tr, inr (dice_loss, ce_loss)).
Proof.
  intros Hrank Hdice Hce. unfold DiceCELoss.forward.
  apply Nat.eqb_eq in Hrank. rewrite Hrank. simpl.
  unfold call_dice. rewrite Hdice, bind_step. rewrite Hce, bind_step.
  simpl. rewrite app_nil_r. reflexivity.
Qed.

End ForwardLemmas.

(** C6.  In [GWDLCELoss] the cross-entropy path squeezes the channel
    dimension of a one-channel target whose channel count differs from the
    prediction's and casts it to the class-index dtype; otherwise a target
    that is not float-valued is cast to the dtype of the prediction; the
    result goes to the external cross entropy.  The Wasserstein Dice path
    receives (prediction, target) as they came. *)
Theorem GWDLCELoss_paths {T : Torch} {X : Externals}
    (self : GWDLCELoss.t) (y_pred y_true : Tensor) (n_pred_ch n_target_ch : nat) :
  channels y_pred = Some n_pred_ch -> channels y_true = Some n_target_ch ->
  GWDLCELoss.ce self y_pred y_true
  = match first_match GWDLCE_rules y_pred y_true with
    | inr reconciled => call_cross_entropy (GWDLCELoss.cross_entropy self) y_pred reconciled
    | inl e => raise e
    end
  /\
  (n_pred_ch <> n_target_ch -> n_target_ch = 1 ->
   exists reconciled,
     first_match GWDLCE_rules y_pred y_true = inr reconciled /\
     shape reconciled = drop_dim (shape y_true) 1 /\ dtype reconciled = int64)
  /\
  (~ (n_pred_ch <> n_target_ch /\ n_target_ch = 1) ->
   first_match GWDLCE_rules y_pred y_true
   = inr (if is_floating_point y_true then y_true else Tensor_to y_true (dtype y_pred)))
  /\
  GWDLCELoss.gwdl self y_pred y_true
  = ([WassersteinDiceCalled (GWDLCELoss.generalized_dice self) y_pred y_true],
     monai_gwdl_call (GWDLCELoss.generalized_dice self) y_pred y_true)
  /\
  (forall tr ce_loss,
     GWDLCELoss.ce self y_pred y_true = (tr, inr ce_loss) ->
     fst (GWDLCELoss.forward self y_pred y_true)
     = tr ++ [WassersteinDiceCalled (GWDLCELoss.generalized_dice self) y_pred y_true]).
Proof.
  intros Hp Ht.
  split; [exact (GWDLCELoss_ce_first_match self _ _ Hp Ht)|].
  split; [|split; [|split]].
  - intros Hne H1. subst n_target_ch.
    destruct (rule_squeeze_rewrites y_pred _ Ht) as (r & Hr & Hshape & Hdtype).
    exists r. split; [|split; assumption].
    unfold GWDLCE_rules, first_match.
    replace (applies rule_squeeze y_pred y_true) with true; [exact Hr|].
    simpl. rewrite Hp, Ht. apply Nat.eqb_neq in Hne. rewrite Hne. reflexivity.
  - intro Hnot. unfold GWDLCE_rules, first_match.
    replace (applies rule_squeeze y_pred y_true) with false.
    + simpl. destruct (is_floating_point y_true); reflexivity.
    + simpl. rewrite Hp, Ht.
      destruct (Nat.eqb_spec n_pred_ch n_target_ch) as [Heq | Hne]; [reflexivity|].
      destruct (Nat.eqb_spec n_target_ch 1) as [H1 | H1]; [|reflexivity].
      exfalso. apply Hnot. split; assumption.
  - reflexivity.
  - intros tr ce_loss Hce. rewrite (GWDLCELoss_forward_after_ce _ _ _ Hce). reflexivity.
Qed.

(** C6, run: the label batch of the concrete environment. *)
Lemma GWDLCELoss_paths_witness :
  exists reconciled,
    first_match GWDLCE_rules Lab.prediction Lab.labels = inr reconciled /\
    shape reconciled = drop_dim (shape Lab.labels) 1 /\ dtype reconciled = int64.
Proof.
  apply (proj1 (proj2 (@GWDLCELoss_paths Lab.torch (Lab.externals 2 0)
                         (Lab.gwdl_ce 2 0) Lab.prediction Lab.labels 3 1
                         eq_refl eq_refl))).
  - discriminate.
  - reflexivity.
Defined.

(** C7 (as amended).  A target whose channel count equals the input's
    and whose dtype is floating reaches the external cross entropy
    unchanged in [GWDLCELoss.ce], and in [DiceCELoss.ce] when
    [old_pt_ver] is false; when [old_pt_ver] is true, [DiceCELoss.ce]
    delegates the arg-max of the target over its channel dimension
    instead. *)
Theorem conforming_target_delegated {T : Torch} {X : Externals}
    (input target : Tensor) (n_ch : nat) :
  channels input = Some n_ch -> channels target = Some n_ch ->
  is_floating_point target = true ->
  (forall self : GWDLCELoss.t,
     GWDLCELoss.ce self input target
     = call_cross_entropy (GWDLCELoss.cross_entropy self) input target)
  /\
  (forall self : DiceCELoss.t, DiceCELoss.old_pt_ver self = false ->
     DiceCELoss.ce self input target
     = call_cross_entropy (DiceCELoss.cross_entropy self) input target)
  /\
  (forall self : DiceCELoss.t, DiceCELoss.old_pt_ver self = true ->
     DiceCELoss.ce self input target
     = match torch_argmax target 1 with
       | inr reduced => call_cross_entropy (DiceCELoss.cross_entropy self) input reduced
       | inl e => raise e
       end).
Proof.
  intros Hp Ht Hfloat.
  assert (Hrule1 : applies rule_squeeze input target = false).
  { simpl. rewrite Hp, Ht, Nat.eqb_refl. reflexivity. }
  split; [|split].
  - intro self. rewrite (GWDLCELoss_ce_first_match self _ _ Hp Ht).
    unfold GWDLCE_rules, first_match. rewrite Hrule1. simpl.
    rewrite Hfloat. reflexivity.
  - intros self Hnew. rewrite (DiceCELoss_ce_first_match self _ _ Hp Ht).
    unfold DiceCE_rules, first_match. rewrite Hrule1, Hnew. simpl.
    rewrite Hfloat. reflexivity.
  - intros self Hold. rewrite (DiceCELoss_ce_first_match self _ _ Hp Ht).
    unfold DiceCE_rules, first_match. rewrite Hrule1, Hold. reflexivity.
Qed.

(** C7, run: the one-hot batch of the concrete environment under
    PyTorch 2.0. *)
Lemma conforming_target_delegated_witness :
  DiceCELoss.ce (Lab.dice_ce 2 0) Lab.prediction Lab.one_hot
  = call_cross_entropy (DiceCELoss.cross_entropy (Lab.dice_ce 2 0))
      Lab.prediction Lab.one_hot.
Proof.
  apply (proj1 (proj2 (@conforming_target_delegated Lab.torch (Lab.externals 2 0)
                         Lab.prediction Lab.one_hot 3 eq_refl eq_refl eq_refl))).
  reflexivity.
Defined.

(** C7 as stated fails for [DiceCELoss.ce]: under PyTorch 1.9 the
    constructor sets [old_pt_ver], and the one-hot float target with the
    channel count of the prediction is replaced by its arg-max, the label
    map of shape (2,4,4,4) and integer dtype, before the cross entropy is
    called. *)
Lemma old_pytorch_rewrites_conforming_target :
  @DiceCELoss.__init__ Lab.torch (Lab.externals 1 9) DiceCELoss.defaults
    = ret (Lab.dice_ce 1 9)
  /\ channels Lab.one_hot = channels Lab.prediction
  /\ is_floating_point Lab.one_hot = true
  /\ fst (DiceCELoss.ce (Lab.dice_ce 1 9) Lab.prediction Lab.one_hot)
     = [CrossEntropyCalled (DiceCELoss.cross_entropy (Lab.dice_ce 1 9))
          Lab.prediction (@mkTensor Lab.torch [2; 4; 4; 4] int64 (data Lab.labels))]
  /\ fst (DiceCELoss.ce (Lab.dice_ce 1 9) Lab.prediction Lab.one_hot)
     <> [CrossEntropyCalled (DiceCELoss.cross_entropy (Lab.dice_ce 1 9))
           Lab.prediction Lab.one_hot].
Proof.
  assert (Hce : fst (DiceCELoss.ce (Lab.dice_ce 1 9) Lab.prediction Lab.one_hot)
     = [CrossEntropyCalled (DiceCELoss.cross_entropy (Lab.dice_ce 1 9))
          Lab.prediction (@mkTensor Lab.torch [2; 4; 4; 4] int64 (data Lab.labels))]).
  { reflexivity. }
  split; [reflexivity|]. split; [reflexivity|]. split; [reflexivity|].
  split; [exact Hce|].
  rewrite Hce. intro H. inversion H.
Qed.

(** C9.  Both forward passes return the pair (region-overlap loss,
    classification loss) as the external losses returned them: the first
    component is what the Dice (or Wasserstein Dice) call returned, the
    second what the cross-entropy call returned; the pair does not depend
    on [lambda_dice] and [lambda_ce], and no sum is formed.  Each forward
    pass does return the pair when its two external losses return:
    [GWDLCELoss.forward] on all tensors with a channel dimension,
    [DiceCELoss.forward] on tensors of one rank whose target the rules
    reconcile. *)
Theorem forward_returns_components {T : Torch} {X : Externals} :
  (forall (self : DiceCELoss.t) (input target dice_loss ce_loss : Tensor) tr,
     List.length (shape input) = List.length (shape target) ->
     DiceLoss_call (DiceCELoss.dice self) input target = inr dice_loss ->
     DiceCELoss.ce self input target = (tr, inr ce_loss) ->
     DiceCELoss.forward self input target
     = (DiceCalled (DiceCELoss.dice self) input target :: tr, inr (dice_loss, ce_loss)) /\
     exists reconciled,
       tr = [CrossEntropyCalled (DiceCELoss.cross_entropy self) input reconciled] /\
       CrossEntropyLoss_call (DiceCELoss.cross_entropy self) input reconciled = inr ce_loss)
  /\
  (forall (self : GWDLCELoss.t) (y_pred y_true gwdl_loss ce_loss : Tensor) tr,
     GWDLCELoss.ce self y_pred y_true = (tr, inr ce_loss) ->
     monai_gwdl_call (GWDLCELoss.generalized_dice self) y_pred y_true = inr gwdl_loss ->
     GWDLCELoss.forward self y_pred y_true
     = (tr ++ [WassersteinDiceCalled (GWDLCELoss.generalized_dice self) y_pred y_true],
        inr (gwdl_loss, ce_loss)) /\
     exists reconciled,
       tr = [CrossEntropyCalled (GWDLCELoss.cross_entropy self) y_pred reconciled] /\
       CrossEntropyLoss_call (GWDLCELoss.cross_entropy self) y_pred reconciled = inr ce_loss)
  /\
  (forall (self : DiceCELoss.t) (lambda_dice lambda_ce : float) (input target : Tensor),
     DiceCELoss.forward
       (DiceCELoss.mk (DiceCELoss.dice self) (DiceCELoss.cross_entropy self)
          lambda_dice lambda_ce (DiceCELoss.old_pt_ver self)) input target
     = DiceCELoss.forward self input target)
  /\
  (forall (self : GWDLCELoss.t) (lambda_dice lambda_ce : float) (y_pred y_true : Tensor),
     GWDLCELoss.forward
       (GWDLCELoss.mk lambda_dice lambda_ce (GWDLCELoss.cross_entropy self)
          (GWDLCELoss.generalized_dice self)) y_pred y_true
     = GWDLCELoss.forward self y_pred y_true)
  /\
  (forall (self : GWDLCELoss.t) (y_pred y_true : Tensor),
     channels y_pred <> None -> channels y_true <> None ->
     exists reconciled,
       first_match GWDLCE_rules y_pred y_true = inr reconciled /\
       forall ce_loss gwdl_loss,
         CrossEntropyLoss_call (GWDLCELoss.cross_entropy self) y_pred reconciled
           = inr ce_loss ->
         monai_gwdl_call (GWDLCELoss.generalized_dice self) y_pred y_true
           = inr gwdl_loss ->
         GWDLCELoss.forward self y_pred y_true
         = ([CrossEntropyCalled (GWDLCELoss.cross_entropy self) y_pred reconciled;
             WassersteinDiceCalled (GWDLCELoss.generalized_dice self) y_pred y_true],
            inr (gwdl_loss, ce_loss)))
  /\
  (forall (self : DiceCELoss.t) (input target reconciled dice_loss ce_loss : Tensor),
     List.length (shape input) = List.length (shape target) ->
     channels input <> None -> channels target <> None ->
     first_match (DiceCE_rules (DiceCELoss.old_pt_ver self)) input target
       = inr reconciled ->
     DiceLoss_call (DiceCELoss.dice self) input target = inr dice_loss ->
     CrossEntropyLoss_call (DiceCELoss.cross_entropy self) input reconciled
       = inr ce_loss ->
     DiceCELoss.forward self input target
     = ([DiceCalled (DiceCELoss.dice self) input target;
         CrossEntropyCalled (DiceCELoss.cross_entropy self) input reconciled],
        inr (dice_loss, ce_loss))).
Proof.
  split; [|split; [|split; [|split; [|split]]]].
  - intros self input target dice_loss ce_loss tr Hrank Hdice Hce. split.
    + exact (DiceCELoss_forward_after_ce _ _ _ Hrank Hdice Hce).
    + exact (DiceCELoss_ce_returns _ _ _ Hce).
  - intros self y_pred y_true gwdl_loss ce_loss tr Hce Hgwdl. split.
    + rewrite (GWDLCELoss_forward_after_ce _ _ _ Hce), Hgwdl. reflexivity.
    + exact (GWDLCELoss_ce_returns _ _ _ Hce).
  - intros self lambda_dice lambda_ce input target. reflexivity.
  - intros self lambda_dice lambda_ce y_pred y_true. reflexivity.
  - intros self y_pred y_true Hp Ht.
    destruct (channels y_pred) as [n_pred_ch|] eqn:Hp'; [|contradiction].
    destruct (channels y_true) as [n_target_ch|] eqn:Ht'; [|contradiction].
    assert (Hrec : exists reconciled,
              first_match GWDLCE_rules y_pred y_true = inr reconciled).
    { unfold GWDLCE_rules, first_match.
      destruct (applies rule_squeeze y_pred y_true) eqn:Hrule.
      - simpl in Hrule. rewrite Hp', Ht' in Hrule.
        apply andb_prop in Hrule. destruct Hrule as (_ & H1).
        apply Nat.eqb_eq in H1. subst n_target_ch.
        destruct (rule_squeeze_rewrites y_pred _ Ht') as (r & Hr & _).
        exists r. exact Hr.
      - destruct (applies rule_cast y_pred y_true); eexists; reflexivity. }
    destruct Hrec as (reconciled & Hrec).
    exists reconciled. split; [exact Hrec|].
    intros ce_loss gwdl_loss Hcall Hgwdl.
    assert (Hce : GWDLCELoss.ce self y_pred y_true
                  = ([CrossEntropyCalled (GWDLCELoss.cross_entropy self) y_pred reconciled],
                     inr ce_loss)).
    { rewrite (GWDLCELoss_ce_first_match self _ _ Hp' Ht'), Hrec. simpl.
      unfold call_cross_entropy. rewrite Hcall. reflexivity. }
    rewrite (GWDLCELoss_forward_after_ce _ _ _ Hce), Hgwdl. reflexivity.
  - intros self input target reconciled dice_loss ce_loss Hrank Hp Ht Hrec Hdice Hcall.
    destruct (channels input) as [n_pred_ch|] eqn:Hp'; [|contradiction].
    destruct (channels target) as [n_target_ch|] eqn:Ht'; [|contradiction].
    assert (Hce : DiceCELoss.ce self input target
                  = ([CrossEntropyCalled (DiceCELoss.cross_entropy self) input reconciled],
                     inr ce_loss)).
    { rewrite (DiceCELoss_ce_first_match self _ _ Hp' Ht'), Hrec. simpl.
      unfold call_cross_entropy. rewrite Hcall. reflexivity. }
    exact (DiceCELoss_forward_after_ce _ _ _ Hrank Hdice Hce).
Qed.

(** C9, run: the forward passes of [DiceCELoss] and of [GWDLCELoss] on
    the label batch of the concrete environment, whose stand-in losses
    return 1 (Dice), 2 (cross entropy) and 3 (Wasserstein Dice). *)
Lemma forward_returns_components_witness :
  DiceCELoss.forward (Lab.dice_ce 2 0) Lab.prediction Lab.labels
  = (DiceCalled (DiceCELoss.dice (Lab.dice_ce 2 0)) Lab.prediction Lab.labels
       :: [CrossEntropyCalled (DiceCELoss.cross_entropy (Lab.dice_ce 2 0)) Lab.prediction
             (Tensor_long (@mkTensor Lab.torch [2; 4; 4; 4] int64 (data Lab.labels)))],
     inr (Lab.scalar 1, Lab.scalar 2))
  /\
  GWDLCELoss.forward (Lab.gwdl_ce 2 0) Lab.prediction Lab.labels
  = ([CrossEntropyCalled (GWDLCELoss.cross_entropy (Lab.gwdl_ce 2 0)) Lab.prediction
        (Tensor_long (@mkTensor Lab.torch [2; 4; 4; 4] int64 (data Lab.labels)));
      WassersteinDiceCalled (GWDLCELoss.generalized_dice (Lab.gwdl_ce 2 0))
        Lab.prediction Lab.labels],
     inr (Lab.scalar 3, Lab.scalar 2)).
Proof.
  pose proof (@forward_returns_components Lab.torch (Lab.externals 2 0))
    as (Hdice & _ & _ & _ & Hgwdl & _).
  split.
  - refine (proj1 (Hdice (Lab.dice_ce 2 0) Lab.prediction Lab.labels
                     (Lab.scalar 1) (Lab.scalar 2) _ _ _ _)); reflexivity.
  - destruct (Hgwdl (Lab.gwdl_ce 2 0) Lab.prediction Lab.labels)
      as (reconciled & Hrec & Hforward).
    + discriminate.
    + discriminate.
    + inversion Hrec. subst reconciled.
      exact (Hforward (Lab.scalar 2) (Lab.scalar 3) eq_refl eq_refl).
Defined.

(** * Further properties of the code *)

(** ** The builders: failures, trace, device *)

(** X1.  When [np.load] raises on the table of the variant,
    [get_tooth_dist_matrix] raises the same exception: the load was the
    only thing that happened, and no diagnostic line was printed. *)
Theorem get_tooth_dist_matrix_missing_table {T : Torch} {X : Externals}
    (device : Device) (v : PyObj) (e : Exception) :
  np_load (table_of v) = inl e ->
  get_tooth_dist_matrix device (Some v) = ([LoadCalled (table_of v)], inl e).
Proof.
  intro Hload. unfold get_tooth_dist_matrix, table_of, load in *.
  destruct (truthy v); unfold bind at 1 2; simpl; rewrite Hload; reflexivity.
Qed.

(** X1, run: a checkout without the table files. *)
Lemma get_tooth_dist_matrix_missing_table_witness :
  @get_tooth_dist_matrix Lab.torch
     (Faulty.externals Faulty.no_files (inr (Lab.scalar 1)) (inr (Lab.scalar 2))
        (inr (Lab.scalar 3)) 2 0)
     "cpu" (Some (PyBool true))
  = ([LoadCalled wasserstein_matrix_npy], inl (FileNotFoundError wasserstein_matrix_npy)).
Proof.
  apply (@get_tooth_dist_matrix_missing_table Lab.torch
           (Faulty.externals Faulty.no_files (inr (Lab.scalar 1)) (inr (Lab.scalar 2))
              (inr (Lab.scalar 3)) 2 0)
           "cpu" (PyBool true)).
  reflexivity.
Defined.

(** X2.  A table that is not 32 by 32 is not checked when it is loaded:
    on a device that can be used the diagnostic line is printed first, and
    the function then fails with the [RuntimeError] of [torch.cat], at the
    first concatenation (along dimension 0, 32 columns against the
    columns of the table) when the table does not have 32 columns, and at
    the second (along dimension 1, 33 rows against one more than the rows
    of the table) when it has 32 columns but not 32 rows. *)
Theorem get_tooth_dist_matrix_wrong_shape {T : Torch} {X : Externals}
    (device : Device) (v : PyObj) (base : NdArray) :
  np_load (table_of v) = inr base ->
  device_available device = true ->
  a_rows base <> 32 \/ a_cols base <> 32 ->
  get_tooth_dist_matrix device (Some v)
  = ([LoadCalled (table_of v); Printed (line_of v)],
     inl (RuntimeError
            (error_text
               (if a_cols base =? 32
                then CatSizeMismatch 1 33 (S (a_rows base))
                else CatSizeMismatch 0 32 (a_cols base))))).
Proof.
  intros Hload Hdev Hshape.
  unfold get_tooth_dist_matrix, table_of, line_of, load, print, to_device in *.
  rewrite Hdev.
  destruct (truthy v); unfold bind at 1 2; simpl; rewrite Hload;
    cbv beta iota zeta delta -[Nat.eqb String.eqb a_cols a_rows a_cell error_text];
    rewrite String.eqb_refl;
    cbv beta iota zeta delta -[Nat.eqb String.eqb a_cols a_rows a_cell error_text];
    rewrite (Nat.eqb_sym 32 (a_cols base));
    (destruct (Nat.eqb_spec (a_cols base) 32) as [Hcols | Hcols]; [|reflexivity]);
    cbv beta iota zeta delta -[Nat.eqb String.eqb a_cols a_rows a_cell error_text];
    rewrite String.eqb_refl;
    cbv beta iota zeta delta -[Nat.eqb String.eqb a_cols a_rows a_cell error_text];
    (destruct (Nat.eqb_spec 33 (S (a_rows base))) as [Hrows | Hrows];
     [exfalso; destruct Hshape as [H | H]; [apply H; lia | contradiction]
     | reflexivity]).
Qed.

(** X2, run: a table of 28 rows and 32 columns. *)
Lemma get_tooth_dist_matrix_wrong_shape_witness :
  @get_tooth_dist_matrix Lab.torch
     (Faulty.externals (Faulty.only Faulty.short_table) (inr (Lab.scalar 1))
        (inr (Lab.scalar 2)) (inr (Lab.scalar 3)) 2 0)
     "cpu" (Some (PyBool false))
  = ([LoadCalled wasserstein_matrix_equal_npy;
      Printed "Using equal quarters - no intra quarter penalty"],
     inl (RuntimeError (@error_text Lab.torch (CatSizeMismatch 1 33 29)))).
Proof.
  apply (@get_tooth_dist_matrix_wrong_shape Lab.torch
           (Faulty.externals (Faulty.only Faulty.short_table) (inr (Lab.scalar 1))
              (inr (Lab.scalar 2)) (inr (Lab.scalar 3)) 2 0)
           "cpu" (PyBool false) Faulty.short_table).
  - reflexivity.
  - reflexivity.
  - left. simpl. discriminate.
Defined.

(** X3.  A call of [get_tooth_dist_matrix] that returns has loaded one
    table and printed one line, the line of the table it loaded, and the
    matrix it returns is on the device asked for; so is the matrix of
    [get_equall_dist_matrix]. *)
Theorem built_matrix_trace_and_device {T : Torch} {X : Externals}
    (device : Device) :
  (forall (v : PyObj) tr m,
     get_tooth_dist_matrix device (Some v) = (tr, inr m) ->
     m_device m = device /\
     tr = if truthy v
          then [LoadCalled wasserstein_matrix_npy; Printed "Using intra quarters penalty"]
          else [LoadCalled wasserstein_matrix_equal_npy;
                Printed "Using equal quarters - no intra quarter penalty"])
  /\
  (forall m, get_equall_dist_matrix device = inr m -> m_device m = device).
Proof.
  split.
  - intros v tr m Hret.
    destruct (get_tooth_dist_matrix_returns _ _ Hret)
      as (base & Hload & Havail & Hrows & Hcols).
    destruct (get_tooth_dist_matrix_run device v Hload Havail Hrows Hcols)
      as (m' & Hrun & Hdev & _).
    rewrite Hrun in Hret. inversion Hret. subst m'. split; [exact Hdev|].
    unfold table_of, line_of. destruct (truthy v); reflexivity.
  - intros m Hret.
    pose proof (get_equall_dist_matrix_returns _ Hret) as Havail.
    destruct (get_equall_dist_matrix_run device Havail) as (m' & Hrun & Hdev & _).
    rewrite Hrun in Hret. inversion Hret. subst m'. exact Hdev.
Qed.

(** X3, run: the default call in the concrete environment. *)
Lemma built_matrix_trace_and_device_witness :
  exists m,
    @get_tooth_dist_matrix Lab.torch (Lab.externals 2 0) "cuda:1" None
    = ([LoadCalled wasserstein_matrix_npy; Printed "Using intra quarters penalty"], inr m)
    /\ m_device m = "cuda:1".
Proof.
  destruct (@get_tooth_dist_matrix Lab.torch (Lab.externals 2 0) "cuda:1" None)
    as [tr [e | m]] eqn:Hrun.
  - discriminate Hrun.
  - destruct (proj1 (@built_matrix_trace_and_device Lab.torch (Lab.externals 2 0) "cuda:1")
                (PyStr "True") tr m Hrun) as (Hdev & Htr).
    exists m. rewrite Htr. split; [reflexivity | exact Hdev].
Defined.

(** X4.  When the file of the equal variant holds the 32 by 32 table of
    ones, on a device that can be used [get_tooth_dist_matrix] with a
    falsy [quarter_penalty] and [get_equall_dist_matrix] both return, and
    the matrices they return have the same size, are on the same device,
    and agree at every index. *)
Theorem equal_variants_agree {T : Torch} {X : Externals}
    (device : Device) (v : PyObj) (base : NdArray) :
  truthy v = false ->
  np_load wasserstein_matrix_equal_npy = inr base ->
  device_available device = true ->
  a_rows base = 32 -> a_cols base = 32 ->
  (forall i j, i < 32 -> j < 32 -> a_cell base i j = 1%float) ->
  exists tr m m',
    get_tooth_dist_matrix device (Some v) = (tr, inr m) /\
    get_equall_dist_matrix device = inr m' /\
    nrows m = nrows m' /\ ncols m = ncols m' /\ m_device m = m_device m' /\
    forall i j, getitem2 m i j = getitem2 m' i j.
Proof.
  intros Hfalsy Hload Hdev Hrows Hcols Hones.
  assert (Hload' : np_load (table_of v) = inr base).
  { unfold table_of. rewrite Hfalsy. exact Hload. }
  destruct (get_tooth_dist_matrix_run device v Hload' Hdev Hrows Hcols)
    as (m & Hrun & Hdevm & Hm).
  destruct (get_equall_dist_matrix_run device Hdev) as (m' & Hrun' & Hdevm' & Hm').
  eexists. exists m, m'. split; [exact Hrun|]. split; [exact Hrun'|].
  destruct Hm as (Hr & Hc & Hcell). destruct Hm' as (Hr' & Hc' & Hcell').
  split; [congruence|]. split; [congruence|]. split; [congruence|].
  intros i j.
  destruct (Nat.ltb_spec i 33) as [Hi | Hi]; [destruct (Nat.ltb_spec j 33) as [Hj | Hj]|].
  - rewrite (Hcell i j Hi Hj), (Hcell' i j Hi Hj). unfold with_background.
    destruct ((i =? 0) && (j =? 0)); [reflexivity|].
    destruct ((i =? 0) || (j =? 0)) eqn:Hedge; [reflexivity|].
    apply orb_false_elim in Hedge. destruct Hedge as (Hi0 & Hj0).
    apply Nat.eqb_neq in Hi0, Hj0. rewrite Hones by lia. reflexivity.
  - unfold getitem2, index_error. rewrite Hr, Hc, Hr', Hc'.
    apply Nat.ltb_ge in Hj. rewrite Hj, !andb_false_r. reflexivity.
  - unfold getitem2, index_error. rewrite Hr, Hr'.
    apply Nat.ltb_ge in Hi. rewrite Hi. reflexivity.
Qed.

(** X4, run: the table of ones of the concrete environment. *)
Lemma equal_variants_agree_witness :
  exists tr m m',
    @get_tooth_dist_matrix Lab.torch (Lab.externals 2 0) "cpu" (Some (PyStr ""))
      = (tr, inr m) /\
    @get_equall_dist_matrix Lab.torch "cpu" = inr m' /\
    nrows m = nrows m' /\ ncols m = ncols m' /\ m_device m = m_device m' /\
    forall i j, getitem2 (T:=Lab.torch) m i j = getitem2 (T:=Lab.torch) m' i j.
Proof.
  apply (@equal_variants_agree Lab.torch (Lab.externals 2 0) "cpu" (PyStr "")
           Lab.equal_table); try reflexivity.
Defined.

(** X5.  Embedding the background class keeps symmetry and adds none:
    the matrix that [get_tooth_dist_matrix] returns is symmetric exactly
    when the table it loaded is. *)
Theorem built_matrix_symmetry {T : Torch} {X : Externals}
    (device : Device) (v : PyObj) (tr : list Event) (m : Matrix) :
  get_tooth_dist_matrix device (Some v) = (tr, inr m) ->
  exists base, np_load (table_of v) = inr base /\
    ((forall i j, i < 33 -> j < 33 -> getitem2 m i j = getitem2 m j i) <->
     (forall i j, i < 32 -> j < 32 -> a_cell base i j = a_cell base j i)).
Proof.
  intro Hret.
  destruct (get_tooth_dist_matrix_returns _ _ Hret)
      as (base & Hload & Havail & Hrows & Hcols).
  destruct (get_tooth_dist_matrix_run device v Hload Havail Hrows Hcols)
    as (m' & Hrun & _ & Hm).
  rewrite Hrun in Hret. inversion Hret. subst m'.
  exists base. split; [exact Hload|].
  destruct Hm as (_ & _ & Hcell). split.
  - intros Hsym i j Hi Hj.
    specialize (Hsym (S i) (S j) ltac:(lia) ltac:(lia)).
    rewrite (Hcell (S i) (S j)), (Hcell (S j) (S i)) in Hsym by lia.
    unfold with_background in Hsym. simpl in Hsym.
    rewrite !Nat.sub_0_r in Hsym. inversion Hsym. reflexivity.
  - intros Hsym i j Hi Hj.
    rewrite (Hcell i j), (Hcell j i) by lia. unfold with_background.
    destruct i as [|i], j as [|j]; try reflexivity.
    simpl. rewrite !Nat.sub_0_r. rewrite (Hsym i j) by lia. reflexivity.
Qed.

(** X5, run: a table that is not symmetric gives a matrix that is not. *)
Lemma built_matrix_symmetry_witness :
  exists tr m,
    @get_tooth_dist_matrix Lab.torch
       (Faulty.externals (Faulty.only Faulty.skew_table) (inr (Lab.scalar 1))
          (inr (Lab.scalar 2)) (inr (Lab.scalar 3)) 2 0)
       "cpu" (Some (PyBool true)) = (tr, inr m) /\
    ~ (forall i j, i < 33 -> j < 33 ->
         getitem2 (T:=Lab.torch) m i j = getitem2 (T:=Lab.torch) m j i).
Proof.
  destruct (@get_tooth_dist_matrix Lab.torch
       (Faulty.externals (Faulty.only Faulty.skew_table) (inr (Lab.scalar 1))
          (inr (Lab.scalar 2)) (inr (Lab.scalar 3)) 2 0)
       "cpu" (Some (PyBool true))) as [tr [e | m]] eqn:Hrun.
  - discriminate Hrun.
  - exists tr, m. split; [reflexivity|].
    destruct (@built_matrix_symmetry Lab.torch _ "cpu" (PyBool true) tr m Hrun)
      as (base & Hload & Hiff).
    inversion Hload. subst base. intro Hsym.
    pose proof (proj1 Hiff Hsym 0 1 ltac:(lia) ltac:(lia)) as Hcells.
    simpl in Hcells.
    pose proof (f_equal (fun x => PrimFloat.eqb x 1%float) Hcells) as Hne.
    discriminate Hne.
Defined.

(** ** The cross-entropy paths: what they raise on their own *)

Section CeOutcomeLemmas.
Context {T : Torch} {X : Externals}.

Lemma Tensor_to_shape_dtype (t : Tensor) (d : DType) :
  shape (Tensor_to t d) = shape t /\ dtype (Tensor_to t d) = d.
Proof.
  unfold Tensor_to. destruct (DType_eqb (dtype t) d) eqn:E; simpl.
  - split; [reflexivity|]. destruct (dtype t), d; try discriminate E; reflexivity.
  - split; reflexivity.
Qed.

(** Arg-max over the channels returns on a tensor that has channels and
    a dtype that the arg-max accepts, and raises on every other. *)
Lemma torch_argmax_channels (t : Tensor) (n : nat) :
  channels t = Some n ->
  (n <> 0 /\ argmax_accepts (dtype t) = true /\
   torch_argmax t 1
   = inr {| shape := drop_dim (shape t) 1; dtype := int64;
            data := argmax_storage (shape t) 1 (data t) |})
  \/
  ((n = 0 \/ argmax_accepts (dtype t) = false) /\
   exists e, torch_argmax t 1 = inl e).
Proof.
  unfold channels, torch_argmax. intros ->.
  destruct n as [|n].
  - right. split; [left; reflexivity|]. eexists. reflexivity.
  - destruct (argmax_accepts (dtype t)).
    + left. split; [discriminate|]. split; reflexivity.
    + right. split; [right; reflexivity|]. eexists. reflexivity.
Qed.

(** The two rules of [GWDLCELoss] always produce a target. *)
Lemma GWDLCE_rules_total (input target : Tensor) (n_pred_ch n_target_ch : nat) :
  channels input = Some n_pred_ch -> channels target = Some n_target_ch ->
  exists reconciled, first_match GWDLCE_rules input target = inr reconciled.
Proof.
  intros Hp Ht. unfold GWDLCE_rules, first_match.
  destruct (applies rule_squeeze input target) eqn:Hrule.
  - simpl in Hrule. rewrite Hp, Ht in Hrule.
    apply andb_prop in Hrule. destruct Hrule as (_ & H1).
    apply Nat.eqb_eq in H1. subst n_target_ch.
    destruct (rule_squeeze_rewrites input _ Ht) as (r & Hr & _).
    exists r. exact Hr.
  - destruct (applies rule_cast input target); eexists; reflexivity.
Qed.

End CeOutcomeLemmas.

(** X6.  [GWDLCELoss.ce] raises on its own only for a tensor of rank
    below 2, an [IndexError] before any external call; on tensors that
    have a channel dimension it always calls the external cross entropy
    exactly once, on the prediction as it came, and its outcome is the
    outcome of that call. *)
Theorem GWDLCELoss_ce_outcome {T : Torch} {X : Externals}
    (self : GWDLCELoss.t) (input target : Tensor) :
  (channels input = None \/ channels target = None ->
   GWDLCELoss.ce self input target = ([], inl (IndexError "tuple index out of range")))
  /\
  (channels input <> None -> channels target <> None ->
   exists reconciled,
     GWDLCELoss.ce self input target
     = ([CrossEntropyCalled (GWDLCELoss.cross_entropy self) input reconciled],
        CrossEntropyLoss_call (GWDLCELoss.cross_entropy self) input reconciled)).
Proof.
  split.
  - intros Hnone. unfold GWDLCELoss.ce, Size_getitem. unfold channels in Hnone.
    destruct (nth_error (shape input) 1) as [n_pred_ch|] eqn:Hp.
    + destruct Hnone as [Hnone | Hnone]; [discriminate Hnone|].
      rewrite bind_lift_inr, Hnone. reflexivity.
    + reflexivity.
  - intros Hp Ht.
    destruct (channels input) as [n_pred_ch|] eqn:Hp'; [|contradiction].
    destruct (channels target) as [n_target_ch|] eqn:Ht'; [|contradiction].
    rewrite (GWDLCELoss_ce_first_match self _ _ Hp' Ht').
    destruct (GWDLCE_rules_total _ _ Hp' Ht') as (r & Hr).
    exists r. rewrite Hr. reflexivity.
Qed.

(** X6, run: a target of rank 1. *)
Lemma GWDLCELoss_ce_outcome_witness :
  GWDLCELoss.ce (Lab.gwdl_ce 2 0) Lab.prediction Faulty.vector
  = ([], inl (IndexError "tuple index out of range")).
Proof.
  apply (proj1 (@GWDLCELoss_ce_outcome Lab.torch (Lab.externals 2 0)
                  (Lab.gwdl_ce 2 0) Lab.prediction Faulty.vector)).
  right. reflexivity.
Defined.

(** X7.  [DiceCELoss.ce] raises on its own for a tensor of rank below 2
    (an [IndexError], before any external call) and, on tensors with
    channel dimensions, only when [old_pt_ver] is set, the first rule does
    not apply and [torch.argmax] raises on the target, because it has zero
    channels or a dtype the arg-max does not accept, as the boolean one
    (the exception of the arg-max, before any external call); in every
    other case it calls the external cross entropy exactly once and its
    outcome is the outcome of that call. *)
Theorem DiceCELoss_ce_outcome {T : Torch} {X : Externals}
    (self : DiceCELoss.t) (input target : Tensor) :
  (channels input = None \/ channels target = None ->
   DiceCELoss.ce self input target = ([], inl (IndexError "tuple index out of range")))
  /\
  (forall n_pred_ch n_target_ch,
   channels input = Some n_pred_ch -> channels target = Some n_target_ch ->
   DiceCELoss.old_pt_ver self = true ->
   ~ (n_pred_ch <> n_target_ch /\ n_target_ch = 1) ->
   n_target_ch = 0 \/ argmax_accepts (dtype target) = false ->
   exists e, torch_argmax target 1 = inl e /\
             DiceCELoss.ce self input target = ([], inl e))
  /\
  (forall n_pred_ch n_target_ch,
   channels input = Some n_pred_ch -> channels target = Some n_target_ch ->
   DiceCELoss.old_pt_ver self = false \/
   (n_pred_ch <> n_target_ch /\ n_target_ch = 1) \/
   (n_target_ch <> 0 /\ argmax_accepts (dtype target) = true) ->
   exists reconciled,
     DiceCELoss.ce self input target
     = ([CrossEntropyCalled (DiceCELoss.cross_entropy self) input reconciled],
        CrossEntropyLoss_call (DiceCELoss.cross_entropy self) input reconciled)).
Proof.
  split; [|split].
  - intros Hnone. unfold DiceCELoss.ce, Size_getitem. unfold channels in Hnone.
    destruct (nth_error (shape input) 1) as [n_pred_ch|] eqn:Hp.
    + destruct Hnone as [Hnone | Hnone]; [discriminate Hnone|].
      rewrite bind_lift_inr, Hnone. reflexivity.
    + reflexivity.
  - intros n_pred_ch n_target_ch Hp Ht Hold Hnot Hbad.
    rewrite (DiceCELoss_ce_first_match self _ _ Hp Ht).
    unfold DiceCE_rules, first_match.
    replace (applies rule_squeeze input target) with false.
    + rewrite Hold. simpl applies. cbv iota. simpl rewrites.
      destruct (torch_argmax_channels _ Ht) as [(Hne & Hacc & _) | (_ & e & Hmax)].
      * exfalso. destruct Hbad as [H0 | Hrej]; [contradiction|].
        rewrite Hrej in Hacc. discriminate Hacc.
      * exists e. rewrite Hmax. split; reflexivity.
    + simpl. rewrite Hp, Ht.
      destruct (Nat.eqb_spec n_pred_ch n_target_ch) as [Heq | Hne]; [reflexivity|].
      destruct (Nat.eqb_spec n_target_ch 1) as [H1 | H1]; [|reflexivity].
      exfalso. apply Hnot. split; assumption.
  - intros n_pred_ch n_target_ch Hp Ht Hok.
    rewrite (DiceCELoss_ce_first_match self _ _ Hp Ht).
    unfold DiceCE_rules, first_match.
    destruct (applies rule_squeeze input target) eqn:Hrule.
    + simpl in Hrule. rewrite Hp, Ht in Hrule.
      apply andb_prop in Hrule. destruct Hrule as (_ & H1).
      apply Nat.eqb_eq in H1. subst n_target_ch.
      destruct (rule_squeeze_rewrites input _ Ht) as (r & Hr & _).
      exists r. rewrite Hr. reflexivity.
    + simpl applies at 1.
      destruct (DiceCELoss.old_pt_ver self).
      * simpl rewrites.
        destruct Hok as [Hok | [(Hne & H1) | (Hne & Hacc)]].
        -- discriminate Hok.
        -- exfalso. simpl in Hrule. rewrite Hp, Ht in Hrule.
           apply Nat.eqb_neq in Hne. apply Nat.eqb_eq in H1.
           rewrite Hne, H1 in Hrule. discriminate Hrule.
        -- destruct (torch_argmax_channels _ Ht)
             as [(_ & _ & Hmax) | ([H0 | Hrej] & _)].
           ++ rewrite Hmax. eexists. reflexivity.
           ++ contradiction.
           ++ rewrite Hrej in Hacc. discriminate Hacc.
      * destruct (applies rule_cast input target); eexists; reflexivity.
Qed.

(** X7, run: a boolean mask with the channels of the input, under
    PyTorch 1.9. *)
Lemma DiceCELoss_ce_outcome_witness :
  exists e,
    torch_argmax Faulty.bool_mask 1 = inl e /\
    DiceCELoss.ce (Lab.dice_ce 1 9) Faulty.slab Faulty.bool_mask = ([], inl e).
Proof.
  apply (proj1 (proj2 (@DiceCELoss_ce_outcome Lab.torch (Lab.externals 1 9)
                         (Lab.dice_ce 1 9) Faulty.slab Faulty.bool_mask))
           3 3 eq_refl eq_refl eq_refl).
  - intros (Hne & _). apply Hne. reflexivity.
  - right. reflexivity.
Defined.

(** ** The forward passes: order of the calls and failures *)

Section ForwardOrderLemmas.
Context {T : Torch} {X : Externals}.

(** Whatever the reconciliation gave, the delegation calls nothing but
    the cross entropy, on the input as it came. *)
Lemma delegate_calls_only_cross_entropy (c : CrossEntropyLoss) (input : Tensor)
    (reconciled : Exc Tensor) (ev : Event) :
  In ev (fst (delegate c input reconciled)) ->
  exists target, ev = CrossEntropyCalled c input target.
Proof.
  destruct reconciled as [e|target]; simpl.
  - intros [].
  - intros [<- | []]. exists target. reflexivity.
Qed.

Lemma GWDLCELoss_ce_calls_only_cross_entropy (self : GWDLCELoss.t)
    (input target : Tensor) (ev : Event) :
  In ev (fst (GWDLCELoss.ce self input target)) ->
  exists reconciled, ev = CrossEntropyCalled (GWDLCELoss.cross_entropy self) input reconciled.
Proof.
  destruct (channels input) as [n_pred_ch|] eqn:Hp;
    [destruct (channels target) as [n_target_ch|] eqn:Ht|].
  - rewrite (GWDLCELoss_ce_first_match self _ _ Hp Ht).
    apply delegate_calls_only_cross_entropy.
  - unfold GWDLCELoss.ce. rewrite (Size_getitem_channels _ Hp), bind_lift_inr.
    unfold Size_getitem. unfold channels in Ht. rewrite Ht. intros [].
  - unfold GWDLCELoss.ce, Size_getitem. unfold channels in Hp. rewrite Hp. intros [].
Qed.

Lemma channels_None_rank (t : Tensor) :
  channels t = None <-> List.length (shape t) < 2.
Proof.
  unfold channels. rewrite nth_error_None. lia.
Qed.

End ForwardOrderLemmas.

(** X8.  [GWDLCELoss.forward] runs the cross-entropy path first: when
    that path raises, the forward pass raises the same exception and the
    Wasserstein Dice loss is never called; when it returns and the
    Wasserstein Dice loss raises, the forward pass raises that exception
    and the cross-entropy loss is dropped. *)
Theorem GWDLCELoss_forward_failures {T : Torch} {X : Externals}
    (self : GWDLCELoss.t) (y_pred y_true : Tensor) :
  (forall tr e,
     GWDLCELoss.ce self y_pred y_true = (tr, inl e) ->
     GWDLCELoss.forward self y_pred y_true = (tr, inl e) /\
     forall g p t, ~ In (WassersteinDiceCalled g p t)
                        (fst (GWDLCELoss.forward self y_pred y_true)))
  /\
  (forall tr ce_loss e,
     GWDLCELoss.ce self y_pred y_true = (tr, inr ce_loss) ->
     monai_gwdl_call (GWDLCELoss.generalized_dice self) y_pred y_true = inl e ->
     GWDLCELoss.forward self y_pred y_true
     = (tr ++ [WassersteinDiceCalled (GWDLCELoss.generalized_dice self) y_pred y_true],
        inl e)).
Proof.
  split.
  - intros tr e Hce.
    assert (Hfwd : GWDLCELoss.forward self y_pred y_true = (tr, inl e)).
    { unfold GWDLCELoss.forward. rewrite Hce. reflexivity. }
    split; [exact Hfwd|]. intros g p t Hin. rewrite Hfwd in Hin. simpl in Hin.
    assert (Hin' : In (WassersteinDiceCalled g p t)
                      (fst (GWDLCELoss.ce self y_pred y_true))).
    { rewrite Hce. exact Hin. }
    destruct (GWDLCELoss_ce_calls_only_cross_entropy _ _ _ _ Hin') as (r & Hr).
    discriminate Hr.
  - intros tr ce_loss e Hce Hgwdl.
    rewrite (GWDLCELoss_forward_after_ce _ _ _ Hce), Hgwdl. reflexivity.
Qed.

(** X8, run: a target of rank 1, and a Wasserstein Dice loss that
    raises. *)
Lemma GWDLCELoss_forward_failures_witness :
  GWDLCELoss.forward (Lab.gwdl_ce 2 0) Lab.prediction Faulty.vector
    = ([], inl (IndexError "tuple index out of range"))
  /\
  GWDLCELoss.forward
     (Faulty.gwdl_ce Faulty.gwdl_raising Faulty.ce_obj Faulty.gwdl_obj)
     Lab.prediction Lab.one_hot
    = ([@CrossEntropyCalled Lab.torch Faulty.gwdl_raising Faulty.ce_obj
          Lab.prediction Lab.one_hot;
        @WassersteinDiceCalled Lab.torch Faulty.gwdl_raising Faulty.gwdl_obj
          Lab.prediction Lab.one_hot],
       inl (RuntimeError "wasserstein")).
Proof.
  split.
  - apply (proj1 (@GWDLCELoss_forward_failures Lab.torch (Lab.externals 2 0)
                    (Lab.gwdl_ce 2 0) Lab.prediction Faulty.vector)).
    reflexivity.
  - apply (proj2 (@GWDLCELoss_forward_failures Lab.torch Faulty.gwdl_raising
                    (Faulty.gwdl_ce Faulty.gwdl_raising Faulty.ce_obj Faulty.gwdl_obj)
                    Lab.prediction Lab.one_hot)
             [@CrossEntropyCalled Lab.torch Faulty.gwdl_raising Faulty.ce_obj
                Lab.prediction Lab.one_hot]
             (Lab.scalar 2) (RuntimeError "wasserstein")); reflexivity.
Defined.

(** X9.  [DiceCELoss.forward] on tensors of one rank calls the Dice loss
    first, on (input, target) as they came; when the Dice loss raises, the
    forward pass raises the same exception and the cross entropy is never
    called.  The trace of a forward pass is therefore empty only when the
    ranks differ. *)
Theorem DiceCELoss_forward_dice_first {T : Torch} {X : Externals}
    (self : DiceCELoss.t) (input target : Tensor) :
  (List.length (shape input) = List.length (shape target) ->
   hd_error (fst (DiceCELoss.forward self input target))
     = Some (DiceCalled (DiceCELoss.dice self) input target) /\
   forall e, DiceLoss_call (DiceCELoss.dice self) input target = inl e ->
     DiceCELoss.forward self input target
     = ([DiceCalled (DiceCELoss.dice self) input target], inl e))
  /\
  (fst (DiceCELoss.forward self input target) = [] ->
   List.length (shape input) <> List.length (shape target)).
Proof.
  assert (Hhead : List.length (shape input) = List.length (shape target) ->
    hd_error (fst (DiceCELoss.forward self input target))
    = Some (DiceCalled (DiceCELoss.dice self) input target)).
  { intro Hrank. unfold DiceCELoss.forward.
    apply Nat.eqb_eq in Hrank. rewrite Hrank. simpl. unfold call_dice.
    destruct (DiceLoss_call (DiceCELoss.dice self) input target) as [e|dice_loss].
    - reflexivity.
    - rewrite bind_step. reflexivity. }
  split.
  - intro Hrank. split; [exact (Hhead Hrank)|].
    intros e Hdice. unfold DiceCELoss.forward.
    apply Nat.eqb_eq in Hrank. rewrite Hrank. simpl. unfold call_dice.
    rewrite Hdice. reflexivity.
  - intros Hempty Hrank. specialize (Hhead Hrank).
    rewrite Hempty in Hhead. discriminate Hhead.
Qed.

(** X9, run: a Dice loss that raises. *)
Lemma DiceCELoss_forward_dice_first_witness :
  DiceCELoss.forward
     (Faulty.dice_ce Faulty.dice_raising Faulty.dice_obj Faulty.ce_obj false)
     Lab.prediction Lab.labels
  = ([@DiceCalled Lab.torch Faulty.dice_raising Faulty.dice_obj
        Lab.prediction Lab.labels],
     inl (RuntimeError "dice")).
Proof.
  apply (proj1 (@DiceCELoss_forward_dice_first Lab.torch Faulty.dice_raising
                  (Faulty.dice_ce Faulty.dice_raising Faulty.dice_obj Faulty.ce_obj false)
                  Lab.prediction Lab.labels)); reflexivity.
Defined.

(** X10.  The rank check of [DiceCELoss.forward] compares the ranks and
    does not bound them: for two tensors of one rank below 2 the Dice loss
    is called, and when it returns the forward pass raises the
    [IndexError] of reading the channel count, without calling the cross
    entropy. *)
Theorem DiceCELoss_forward_low_rank {T : Torch} {X : Externals}
    (self : DiceCELoss.t) (input target dice_loss : Tensor) :
  List.length (shape input) = List.length (shape target) ->
  List.length (shape input) < 2 ->
  DiceLoss_call (DiceCELoss.dice self) input target = inr dice_loss ->
  DiceCELoss.forward self input target
  = ([DiceCalled (DiceCELoss.dice self) input target],
     inl (IndexError "tuple index out of range")).
Proof.
  intros Hrank Hlow Hdice. unfold DiceCELoss.forward.
  apply Nat.eqb_eq in Hrank. rewrite Hrank. simpl. unfold call_dice.
  rewrite Hdice, bind_step.
  apply channels_None_rank in Hlow. unfold channels in Hlow.
  unfold DiceCELoss.ce, Size_getitem. rewrite Hlow. reflexivity.
Qed.

(** X10, run: two vectors. *)
Lemma DiceCELoss_forward_low_rank_witness :
  DiceCELoss.forward (Lab.dice_ce 2 0) Faulty.vector Faulty.vector
  = ([DiceCalled (DiceCELoss.dice (Lab.dice_ce 2 0)) Faulty.vector Faulty.vector],
     inl (IndexError "tuple index out of range")).
Proof.
  apply (@DiceCELoss_forward_low_rank Lab.torch (Lab.externals 2 0)
           (Lab.dice_ce 2 0) Faulty.vector Faulty.vector (Lab.scalar 1)).
  - reflexivity.
  - simpl. lia.
  - reflexivity.
Defined.

(** ** Construction: what is validated, in which order, and what is kept *)

Section InitOrderLemmas.
Context {T : Torch} {X : Externals}.

(** A NaN is not less than anything. *)
Lemma is_nan_not_ltb (x y : float) :
  PrimFloat.is_nan x = true -> PrimFloat.ltb x y = false.
Proof.
  unfold PrimFloat.is_nan.
  rewrite FloatAxioms.eqb_spec, FloatAxioms.ltb_spec.
  destruct (FloatOps.Prim2SF x) as [s | s | | s m e]; simpl.
  - intro H. discriminate H.
  - destruct s; intro H; discriminate H.
  - reflexivity.
  - unfold SpecFloat.SFeqb, SpecFloat.SFcompare.
    rewrite Z.compare_refl, Pos.compare_cont_refl.
    destruct s; intro H; discriminate H.
Qed.

(** [__init__] returns only through its last line. *)
Lemma DiceCELoss_init_returns (a : DiceCELoss.Args) (tr : list Event) (self : DiceCELoss.t) :
  DiceCELoss.__init__ a = (tr, inr self) ->
  exists member,
    look_up_option (DiceCELoss.reduction a) = inr member /\
    DiceLoss_new (DiceCELoss.dice_arguments a (DiceCEReduction_value member))
      = inr (DiceCELoss.dice self) /\
    CrossEntropyLoss_new (DiceCELoss.ce_weight a) (DiceCEReduction_value member)
      = inr (DiceCELoss.cross_entropy self) /\
    PrimFloat.ltb (DiceCELoss.a_lambda_dice a) 0.0 = false /\
    PrimFloat.ltb (DiceCELoss.a_lambda_ce a) 0.0 = false /\
    tr = [] /\
    self = DiceCELoss.mk (DiceCELoss.dice self) (DiceCELoss.cross_entropy self)
             (DiceCELoss.a_lambda_dice a) (DiceCELoss.a_lambda_ce a)
             (negb (pytorch_after 1 10)).
Proof.
  intro Hret.
  destruct (look_up_option (DiceCELoss.reduction a)) as [e|member] eqn:Hred.
  { unfold DiceCELoss.__init__ in Hret. rewrite Hred in Hret. discriminate Hret. }
  destruct (DiceLoss_new (DiceCELoss.dice_arguments a (DiceCEReduction_value member)))
    as [e|d] eqn:Hdice.
  { unfold DiceCELoss.__init__ in Hret.
    rewrite Hred, bind_lift_inr, Hdice in Hret. discriminate Hret. }
  destruct (CrossEntropyLoss_new (DiceCELoss.ce_weight a) (DiceCEReduction_value member))
    as [e|c] eqn:Hce.
  { unfold DiceCELoss.__init__ in Hret.
    rewrite Hred, bind_lift_inr, Hdice, bind_lift_inr, Hce in Hret. discriminate Hret. }
  rewrite (DiceCELoss_init_checks a Hred Hdice Hce) in Hret.
  destruct (PrimFloat.ltb (DiceCELoss.a_lambda_dice a) 0.0) eqn:Hld;
    [discriminate Hret|].
  destruct (PrimFloat.ltb (DiceCELoss.a_lambda_ce a) 0.0) eqn:Hlc;
    [discriminate Hret|].
  inversion Hret. subst tr self. exists member. simpl.
  repeat split; try reflexivity; assumption.
Qed.

End InitOrderLemmas.

(** X11.  [GWDLCELoss.__init__] checks nothing itself: with weights
    that make [DiceCELoss.__init__] raise (one of them less than 0), it
    returns the object, holding the weights as given, as soon as the two
    external constructors accept their arguments. *)
Theorem GWDLCELoss_init_keeps_negative_weights {T : Torch} {X : Externals}
    (a : DiceCELoss.Args) (dist_matrix : Matrix) (weighting_mode : string)
    (c : CrossEntropyLoss) (g : WassersteinDiceLoss) :
  PrimFloat.ltb (DiceCELoss.a_lambda_dice a) 0.0 = true \/
  PrimFloat.ltb (DiceCELoss.a_lambda_ce a) 0.0 = true ->
  CrossEntropyLoss_new (DiceCELoss.ce_weight a) (DiceCELoss.reduction a) = inr c ->
  monai_gwdl_new dist_matrix weighting_mode (DiceCELoss.reduction a) = inr g ->
  GWDLCELoss.__init__ dist_matrix (DiceCELoss.ce_weight a)
    (DiceCELoss.a_lambda_dice a) (DiceCELoss.a_lambda_ce a)
    weighting_mode (DiceCELoss.reduction a)
  = ret (GWDLCELoss.mk (DiceCELoss.a_lambda_dice a) (DiceCELoss.a_lambda_ce a) c g)
  /\
  exists e, snd (DiceCELoss.__init__ a) = inl e.
Proof.
  intros Hneg Hce Hgwdl. split.
  - unfold GWDLCELoss.__init__.
    rewrite Hce, bind_lift_inr, Hgwdl, bind_lift_inr. reflexivity.
  - exact (DiceCELoss_init_negative a Hneg).
Qed.

(** X11, run: both weights -1.0. *)
Lemma GWDLCELoss_init_keeps_negative_weights_witness :
  @GWDLCELoss.__init__ Lab.torch (Lab.externals 2 0) Faulty.table_33 None
    (-1.0)%float (-1.0)%float "GDL" "sum"
  = ret (@GWDLCELoss.mk Lab.torch (Lab.externals 2 0) (-1.0)%float (-1.0)%float
           (None, "sum") (Faulty.table_33, "GDL", "sum"))
  /\
  exists e, snd (@DiceCELoss.__init__ Lab.torch (Lab.externals 2 0)
                   Faulty.both_negative_args) = inl e.
Proof.
  apply (@GWDLCELoss_init_keeps_negative_weights Lab.torch (Lab.externals 2 0)
           Faulty.both_negative_args Faulty.table_33 "GDL").
  - left. reflexivity.
  - reflexivity.
  - reflexivity.
Defined.

(** X12.  [DiceCELoss.__init__] reports the first failure in the order
    of its statements: with a reduction that is found, an exception of the
    [DiceLoss] constructor, then one of the [CrossEntropyLoss] constructor,
    is raised whatever the weights are; the weights are checked only
    after both objects exist, and [lambda_dice] is the one reported when
    both are negative. *)
Theorem DiceCELoss_init_error_order {T : Torch} {X : Externals}
    (a : DiceCELoss.Args) (member : DiceCEReduction) :
  look_up_option (DiceCELoss.reduction a) = inr member ->
  (forall e,
     DiceLoss_new (DiceCELoss.dice_arguments a (DiceCEReduction_value member)) = inl e ->
     DiceCELoss.__init__ a = raise e)
  /\
  (forall d e,
     DiceLoss_new (DiceCELoss.dice_arguments a (DiceCEReduction_value member)) = inr d ->
     CrossEntropyLoss_new (DiceCELoss.ce_weight a) (DiceCEReduction_value member) = inl e ->
     DiceCELoss.__init__ a = raise e)
  /\
  (forall d c,
     DiceLoss_new (DiceCELoss.dice_arguments a (DiceCEReduction_value member)) = inr d ->
     CrossEntropyLoss_new (DiceCELoss.ce_weight a) (DiceCEReduction_value member) = inr c ->
     PrimFloat.ltb (DiceCELoss.a_lambda_dice a) 0.0 = true ->
     DiceCELoss.__init__ a = raise (ValueError "lambda_dice should be no less than 0.0.")).
Proof.
  intro Hred. split; [|split].
  - intros e Hdice. unfold DiceCELoss.__init__.
    rewrite Hred, bind_lift_inr, Hdice. reflexivity.
  - intros d e Hdice Hce. unfold DiceCELoss.__init__.
    rewrite Hred, bind_lift_inr, Hdice, bind_lift_inr, Hce. reflexivity.
  - intros d c Hdice Hce Hneg.
    rewrite (DiceCELoss_init_checks a Hred Hdice Hce), Hneg. reflexivity.
Qed.

(** X12, run: [sigmoid] and [softmax] both set, and both weights -1.0:
    the error is the one of the Dice constructor. *)
Lemma DiceCELoss_init_error_order_witness :
  @DiceCELoss.__init__ Lab.torch (Lab.externals 2 0) Faulty.clashing_args
  = raise (ValueError
      "Incompatible values: more than 1 of [sigmoid=True, softmax=True, other_act is not None].").
Proof.
  apply (proj1 (@DiceCELoss_init_error_order Lab.torch (Lab.externals 2 0)
                  Faulty.clashing_args MEAN eq_refl)).
  reflexivity.
Defined.

(** X13.  Every object that [DiceCELoss.__init__] returns was built
    without a trace, holds the weights it was given, neither of which is
    less than 0, has [old_pt_ver] set exactly when the installed PyTorch is
    older than 1.10, and holds the Dice loss and the cross entropy that
    the external constructors returned for the value of the enumeration
    member that the lookup found for the reduction, "mean" or "sum". *)
Theorem DiceCELoss_init_invariant {T : Torch} {X : Externals}
    (a : DiceCELoss.Args) (tr : list Event) (self : DiceCELoss.t) :
  DiceCELoss.__init__ a = (tr, inr self) ->
  tr = [] /\
  DiceCELoss.lambda_dice self = DiceCELoss.a_lambda_dice a /\
  DiceCELoss.lambda_ce self = DiceCELoss.a_lambda_ce a /\
  PrimFloat.ltb (DiceCELoss.lambda_dice self) 0.0 = false /\
  PrimFloat.ltb (DiceCELoss.lambda_ce self) 0.0 = false /\
  DiceCELoss.old_pt_ver self = negb (pytorch_after 1 10) /\
  exists member,
    look_up_option (DiceCELoss.reduction a) = inr member /\
    (DiceCEReduction_value member = "mean" \/ DiceCEReduction_value member = "sum") /\
    DiceLoss_new (DiceCELoss.dice_arguments a (DiceCEReduction_value member))
      = inr (DiceCELoss.dice self) /\
    CrossEntropyLoss_new (DiceCELoss.ce_weight a) (DiceCEReduction_value member)
      = inr (DiceCELoss.cross_entropy self).
Proof.
  intro Hret.
  destruct (DiceCELoss_init_returns a Hret)
    as (member & Hred & Hdice & Hce & Hld & Hlc & Htr & Hself).
  split; [exact Htr|].
  rewrite Hself. simpl.
  split; [reflexivity|]. split; [reflexivity|].
  split; [exact Hld|]. split; [exact Hlc|]. split; [reflexivity|].
  exists member. split; [exact Hred|].
  split; [destruct member; [left | right]; reflexivity|].
  split; [exact Hdice | exact Hce].
Qed.

(** X13, run: the default arguments under PyTorch 1.9. *)
Lemma DiceCELoss_init_invariant_witness :
  DiceCELoss.old_pt_ver (Lab.dice_ce 1 9) = true /\
  PrimFloat.ltb (DiceCELoss.lambda_dice (Lab.dice_ce 1 9)) 0.0 = false.
Proof.
  pose proof (@DiceCELoss_init_invariant Lab.torch (Lab.externals 1 9)
                DiceCELoss.defaults [] (Lab.dice_ce 1 9) eq_refl)
    as (_ & _ & _ & Hld & _ & Hold & _).
  split; [exact Hold | exact Hld].
Defined.

(** X14.  A weight that is NaN passes the validation of
    [DiceCELoss.__init__], because a NaN is not less than 0.0: with both
    weights NaN the object is returned and holds them. *)
Theorem DiceCELoss_init_accepts_nan {T : Torch} {X : Externals}
    (a : DiceCELoss.Args) (member : DiceCEReduction)
    (d : DiceLoss) (c : CrossEntropyLoss) :
  look_up_option (DiceCELoss.reduction a) = inr member ->
  DiceLoss_new (DiceCELoss.dice_arguments a (DiceCEReduction_value member)) = inr d ->
  CrossEntropyLoss_new (DiceCELoss.ce_weight a) (DiceCEReduction_value member) = inr c ->
  PrimFloat.is_nan (DiceCELoss.a_lambda_dice a) = true ->
  PrimFloat.is_nan (DiceCELoss.a_lambda_ce a) = true ->
  DiceCELoss.__init__ a
  = ret (DiceCELoss.mk d c (DiceCELoss.a_lambda_dice a) (DiceCELoss.a_lambda_ce a)
           (negb (pytorch_after 1 10))).
Proof.
  intros Hred Hdice Hce Hnd Hnc.
  rewrite (DiceCELoss_init_checks a Hred Hdice Hce).
  rewrite (is_nan_not_ltb _ _ Hnd), (is_nan_not_ltb _ _ Hnc). reflexivity.
Qed.

(** X14, run: [DiceCELoss(lambda_dice=float("nan"),
    lambda_ce=float("nan"))]. *)
Lemma DiceCELoss_init_accepts_nan_witness :
  @DiceCELoss.__init__ Lab.torch (Lab.externals 2 0) Faulty.nan_args
  = ret (@DiceCELoss.mk Lab.torch (Lab.externals 2 0)
           (DiceCELoss.dice_arguments Faulty.nan_args "mean") (None, "mean")
           PrimFloat.nan PrimFloat.nan false).
Proof.
  apply (@DiceCELoss_init_accepts_nan Lab.torch (Lab.externals 2 0)
           Faulty.nan_args MEAN); reflexivity.
Defined.

(** ** The two cross-entropy paths compared, and what they delegate *)

Section DelegatedLemmas.
Context {T : Torch} {X : Externals}.

(** Without the arg-max rule the rules of [DiceCELoss] are those of
    [GWDLCELoss]. *)
Lemma GWDLCE_rules_as_new (input target : Tensor) :
  first_match GWDLCE_rules input target = first_match (DiceCE_rules false) input target.
Proof.
  unfold GWDLCE_rules, DiceCE_rules, first_match.
  destruct (applies rule_squeeze input target); reflexivity.
Qed.

(** The two kinds of target that the rules produce. *)
Lemma DiceCE_rules_kind (old_version : bool) (input target reconciled : Tensor)
    (n_pred_ch n_target_ch : nat) :
  channels input = Some n_pred_ch -> channels target = Some n_target_ch ->
  first_match (DiceCE_rules old_version) input target = inr reconciled ->
  (dtype reconciled = int64 /\ shape reconciled = drop_dim (shape target) 1)
  \/
  (old_version = false /\ shape reconciled = shape target /\
   ((reconciled = target /\ is_floating_point target = true) \/
    (dtype reconciled = dtype input /\ is_floating_point target = false))).
Proof.
  intros Hp Ht. unfold DiceCE_rules, first_match.
  destruct (applies rule_squeeze input target) eqn:Hrule.
  - simpl in Hrule. rewrite Hp, Ht in Hrule.
    apply andb_prop in Hrule. destruct Hrule as (_ & H1).
    apply Nat.eqb_eq in H1. subst n_target_ch.
    destruct (rule_squeeze_rewrites input _ Ht) as (r & Hr & Hshape & Hdtype).
    rewrite Hr. intro H. inversion H. subst r. left. split; assumption.
  - simpl applies at 1. destruct old_version.
    + simpl rewrites.
      destruct (torch_argmax_channels _ Ht) as [(_ & _ & Hmax) | (_ & e & Hmax)];
        rewrite Hmax; intro H; [|discriminate H].
      inversion H. left. split; reflexivity.
    + simpl. destruct (is_floating_point target) eqn:Hfloat; simpl;
        intro H; inversion H; right; (split; [reflexivity|]).
      * split; [reflexivity|]. left. split; reflexivity.
      * destruct (Tensor_to_shape_dtype target (dtype input)) as (Hshape & Hdtype).
        split; [exact Hshape|]. right. split; [exact Hdtype | reflexivity].
Qed.

Lemma DiceCELoss_ce_called (self : DiceCELoss.t) (input target reconciled : Tensor) :
  In (CrossEntropyCalled (DiceCELoss.cross_entropy self) input reconciled)
     (fst (DiceCELoss.ce self input target)) ->
  exists n_pred_ch n_target_ch,
    channels input = Some n_pred_ch /\ channels target = Some n_target_ch /\
    first_match (DiceCE_rules (DiceCELoss.old_pt_ver self)) input target = inr reconciled.
Proof.
  destruct (channels input) as [n_pred_ch|] eqn:Hp;
    [destruct (channels target) as [n_target_ch|] eqn:Ht|].
  - rewrite (DiceCELoss_ce_first_match self _ _ Hp Ht).
    destruct (first_match _ input target) as [e|r]; simpl.
    + intros [].
    + intros [H | []]. inversion H. exists n_pred_ch, n_target_ch. repeat split.
  - unfold DiceCELoss.ce. rewrite (Size_getitem_channels _ Hp), bind_lift_inr.
    unfold Size_getitem. unfold channels in Ht. rewrite Ht. intros [].
  - unfold DiceCELoss.ce, Size_getitem. unfold channels in Hp. rewrite Hp. intros [].
Qed.

End DelegatedLemmas.

(** X15.  With [old_pt_ver] false (PyTorch 1.10 or later), the
    cross-entropy path of [DiceCELoss] is the cross-entropy path of
    [GWDLCELoss]: for the same external cross entropy the two [ce] methods
    have the same trace and the same outcome on every input and target,
    those they raise on included. *)
Theorem ce_paths_agree {T : Torch} {X : Externals}
    (d : DiceCELoss.t) (g : GWDLCELoss.t) (input target : Tensor) :
  DiceCELoss.old_pt_ver d = false ->
  DiceCELoss.cross_entropy d = GWDLCELoss.cross_entropy g ->
  DiceCELoss.ce d input target = GWDLCELoss.ce g input target.
Proof.
  intros Hnew Hsame.
  destruct (channels input) as [n_pred_ch|] eqn:Hp;
    [destruct (channels target) as [n_target_ch|] eqn:Ht|].
  - rewrite (DiceCELoss_ce_first_match d _ _ Hp Ht).
    rewrite (GWDLCELoss_ce_first_match g _ _ Hp Ht).
    rewrite Hnew, Hsame, GWDLCE_rules_as_new. reflexivity.
  - unfold DiceCELoss.ce, GWDLCELoss.ce.
    rewrite (Size_getitem_channels _ Hp), !bind_lift_inr.
    unfold Size_getitem. unfold channels in Ht. rewrite Ht. reflexivity.
  - unfold DiceCELoss.ce, GWDLCELoss.ce, Size_getitem.
    unfold channels in Hp. rewrite Hp. reflexivity.
Qed.

(** X15, run: the two objects of the concrete environment on a mask of
    a narrow integer dtype. *)
Lemma ce_paths_agree_witness :
  DiceCELoss.ce (Lab.dice_ce 2 0) Lab.prediction Faulty.byte_mask
  = GWDLCELoss.ce (Lab.gwdl_ce 2 0) Lab.prediction Faulty.byte_mask.
Proof.
  apply (@ce_paths_agree Lab.torch (Lab.externals 2 0)
           (Lab.dice_ce 2 0) (Lab.gwdl_ce 2 0) Lab.prediction Faulty.byte_mask);
    reflexivity.
Defined.

(** X16.  Whatever [DiceCELoss.ce] passes to the external cross entropy
    as target is of one of two kinds: a class-index map, of the integer
    dtype and of the shape of the target without its channel dimension; or
    a tensor of the shape of the target that is the target itself, when
    the target is float-valued, and has the dtype of the input otherwise.
    With [old_pt_ver] set it is always of the first kind. *)
Theorem DiceCELoss_ce_delegated_kind {T : Torch} {X : Externals}
    (self : DiceCELoss.t) (input target reconciled : Tensor) :
  In (CrossEntropyCalled (DiceCELoss.cross_entropy self) input reconciled)
     (fst (DiceCELoss.ce self input target)) ->
  (dtype reconciled = int64 /\ shape reconciled = drop_dim (shape target) 1)
  \/
  (DiceCELoss.old_pt_ver self = false /\ shape reconciled = shape target /\
   ((reconciled = target /\ is_floating_point target = true) \/
    (dtype reconciled = dtype input /\ is_floating_point target = false))).
Proof.
  intro Hcalled.
  destruct (DiceCELoss_ce_called _ _ _ _ Hcalled) as (n_pred_ch & n_target_ch & Hp & Ht & Hr).
  exact (DiceCE_rules_kind _ _ _ Hp Ht Hr).
Qed.

(** X16, run: the mask of a narrow integer dtype is delegated with the
    dtype of the prediction. *)
Lemma DiceCELoss_ce_delegated_kind_witness :
  (dtype (Tensor_to Faulty.byte_mask float32) = int64 /\
   shape (Tensor_to Faulty.byte_mask float32) = drop_dim (shape Faulty.byte_mask) 1)
  \/
  (DiceCELoss.old_pt_ver (Lab.dice_ce 2 0) = false /\
   shape (Tensor_to Faulty.byte_mask float32) = shape Faulty.byte_mask /\
   ((Tensor_to Faulty.byte_mask float32 = Faulty.byte_mask /\
     is_floating_point Faulty.byte_mask = true) \/
    (dtype (Tensor_to Faulty.byte_mask float32) = dtype Lab.prediction /\
     is_floating_point Faulty.byte_mask = false))).
Proof.
  apply (@DiceCELoss_ce_delegated_kind Lab.torch (Lab.externals 2 0)
           (Lab.dice_ce 2 0) Lab.prediction Faulty.byte_mask
           (Tensor_to Faulty.byte_mask float32)).
  left. reflexivity.
Defined.

(** X17.  [GWDLCELoss.forward] has no rank check: on an input and a
    target of different ranks that both have a channel dimension, where
    [DiceCELoss.forward] raises before any call, it goes on and calls the
    external cross entropy on the prediction and the reconciled target. *)
Theorem GWDLCELoss_forward_no_rank_check {T : Torch} {X : Externals}
    (g : GWDLCELoss.t) (d : DiceCELoss.t) (y_pred y_true : Tensor) :
  List.length (shape y_pred) <> List.length (shape y_true) ->
  2 <= List.length (shape y_pred) -> 2 <= List.length (shape y_true) ->
  fst (DiceCELoss.forward d y_pred y_true) = [] /\
  exists reconciled,
    hd_error (fst (GWDLCELoss.forward g y_pred y_true))
    = Some (CrossEntropyCalled (GWDLCELoss.cross_entropy g) y_pred reconciled).
Proof.
  intros Hrank Hp Ht. split.
  - unfold DiceCELoss.forward. apply Nat.eqb_neq in Hrank. rewrite Hrank. reflexivity.
  - destruct (channels y_pred) as [n_pred_ch|] eqn:Hcp;
      [| apply channels_None_rank in Hcp; lia].
    destruct (channels y_true) as [n_target_ch|] eqn:Hct;
      [| apply channels_None_rank in Hct; lia].
    destruct (GWDLCE_rules_total _ _ Hcp Hct) as (r & Hr).
    exists r. unfold GWDLCELoss.forward.
    rewrite (GWDLCELoss_ce_first_match g _ _ Hcp Hct), Hr. simpl delegate.
    unfold call_cross_entropy.
    destruct (CrossEntropyLoss_call (GWDLCELoss.cross_entropy g) y_pred r) as [e|ce_loss].
    + reflexivity.
    + rewrite bind_step. reflexivity.
Qed.

(** X17, run: a label map that lacks the channel dimension. *)
Lemma GWDLCELoss_forward_no_rank_check_witness :
  fst (DiceCELoss.forward (Lab.dice_ce 2 0) Lab.prediction Lab.flat_labels) = [] /\
  exists reconciled,
    hd_error (fst (GWDLCELoss.forward (Lab.gwdl_ce 2 0) Lab.prediction Lab.flat_labels))
    = Some (CrossEntropyCalled (GWDLCELoss.cross_entropy (Lab.gwdl_ce 2 0))
              Lab.prediction reconciled).
Proof.
  apply (@GWDLCELoss_forward_no_rank_check Lab.torch (Lab.externals 2 0)
           (Lab.gwdl_ce 2 0) (Lab.dice_ce 2 0) Lab.prediction Lab.flat_labels);
    simpl; lia.
Defined.
